(** * AlexNet on MNIST: the script [implementing_alexnet_with_tensorflow.py]

    The script is a straight line of calls into TensorFlow, Keras and
    matplotlib.  Two things are embedded here:

    - the tensor primitives the script applies to the loaded arrays
      ([tf.pad], the division by 255, [tf.expand_dims], [tf.repeat] and the
      slices of the validation split) as functions on arrays that carry their
      static shape next to their elements;
    - the script itself as a program over the calls it makes, run against an
      arbitrary behaviour of the framework, which may raise at every call. *)

From Stdlib Require Import Bool String ZArith QArith Qabs Qround Lia.
From Stdlib Require Import Strings.Byte.
From Stdlib Require Import List.
From Stdlib Require Import Floats.SpecFloat.
Import ListNotations.
Local Open Scope nat_scope.

Set Implicit Arguments.

(** ** Arrays *)

(** A rank-3 array [(n, h, w)] and a rank-4 array [(n, h, w, c)]: the static
    shape the framework keeps, and the elements in row-major nesting. *)
Record Tensor3 (A : Type) : Type := mkT3
  { shape3 : nat * nat * nat;
    data3 : list (list (list A)) }.

Record Tensor4 (A : Type) : Type := mkT4
  { shape4 : nat * nat * nat * nat;
    data4 : list (list (list (list A))) }.

(** The elements agree with the static shape. *)
Definition has_shape2 {A} (h w : nat) (img : list (list A)) : Prop :=
  length img = h /\ Forall (fun row => length row = w) img.

Definition wf3 {A} (t : Tensor3 A) : Prop :=
  let '(n, h, w) := shape3 t in
  length (data3 t) = n /\ Forall (has_shape2 h w) (data3 t).

Definition has_shape3 {A} (h w c : nat) (img : list (list (list A))) : Prop :=
  length img = h /\ Forall (has_shape2 w c) img.

Definition wf4 {A} (t : Tensor4 A) : Prop :=
  let '(n, h, w, c) := shape4 t in
  length (data4 t) = n /\ Forall (has_shape3 h w c) (data4 t).

(** [t.shape[1:]] of a rank-4 array *)
Definition shape_tail {A} (t : Tensor4 A) : nat * nat * nat :=
  let '(_, h, w, c) := shape4 t in (h, w, c).

(** Element access, [None] outside the array. *)
Definition get3 {A} (t : Tensor3 A) (n i j : nat) : option A :=
  match nth_error (data3 t) n with
  | Some img =>
      match nth_error img i with
      | Some row => nth_error row j
      | None => None
      end
  | None => None
  end.

Definition get4 {A} (t : Tensor4 A) (n i j c : nat) : option A :=
  match nth_error (data4 t) n with
  | Some img =>
      match nth_error img i with
      | Some row =>
          match nth_error row j with
          | Some px => nth_error px c
          | None => None
          end
      | None => None
      end
  | None => None
  end.

(** All the elements of a rank-4 array, in order. *)
Definition values4 {A} (t : Tensor4 A) : list A :=
  concat (concat (concat (data4 t))).

(** ** The element types *)

(** MNIST pixels and labels are [uint8]. *)
Abbreviation uint8 := byte (only parsing).

(** The quotient of two [uint8] arrays is a [float32] array: binary32 has a
    24-bit significand and exponents below 128. *)
Abbreviation float32 := spec_float (only parsing).
Definition f32_prec : Z := 24.
Definition f32_emax : Z := 128.

(** The cast of a [uint8] to [float32]; it is exact. *)
Definition cast_float32 (b : uint8) : float32 :=
  binary_normalize f32_prec f32_emax (Z.of_N (Byte.to_N b)) 0 false.

Definition f32_div (x y : float32) : float32 := SFdiv f32_prec f32_emax x y.

Definition f32_zero : float32 := S754_zero false.
Definition f32_one : float32 := cast_float32 x01.

(** ** The tensor primitives of lines 33 to 45 *)

Definition pad_axis {A} (z : A) (p : nat * nat) (l : list A) : list A :=
  repeat z (fst p) ++ l ++ repeat z (snd p).

(** One image under [tf.pad]: [w'] is the width of a padded row. *)
Definition pad_image (w' : nat) (p1 p2 : nat * nat) (img : list (list uint8))
    : list (list uint8) :=
  pad_axis (repeat x00 w') p1 (map (pad_axis x00 p2) img).

(** [tf.pad(t, [[b0, a0], [b1, a1], [b2, a2]])] in its default mode: constant
    padding with zeros, [b] entries before and [a] entries after the content
    on each axis. *)
Definition tf_pad (t : Tensor3 uint8)
    (paddings : (nat * nat) * (nat * nat) * (nat * nat)) : Tensor3 uint8 :=
  let '(p0, p1, p2) := paddings in
  let '(n, h, w) := shape3 t in
  let w' := fst p2 + w + snd p2 in
  let h' := fst p1 + h + snd p1 in
  {| shape3 := (fst p0 + n + snd p0, h', w');
     data3 := pad_axis (repeat (repeat x00 w') h') p0
                (map (pad_image w' p1 p2) (data3 t)) |}.

(** The quotient of two [uint8] values, both cast to [float32]. *)
Definition div_uint8 (y p : uint8) : float32 :=
  f32_div (cast_float32 p) (cast_float32 y).

Definition scale_image (y : uint8) (img : list (list uint8)) : list (list float32) :=
  map (map (div_uint8 y)) img.

(** [t / y] for a [uint8] array [t] and a Python integer [y] that fits
    [uint8]: both sides are cast to [float32] and divided elementwise. *)
Definition truediv (t : Tensor3 uint8) (y : uint8) : Tensor3 float32 :=
  {| shape3 := shape3 t;
     data3 := map (scale_image y) (data3 t) |}.

Definition expand_image {A} (img : list (list A)) : list (list (list A)) :=
  map (map (fun v => [v])) img.

(** [tf.expand_dims(t, axis=3)] on a rank-3 array *)
Definition tf_expand_dims_3 {A} (t : Tensor3 A) : Tensor4 A :=
  let '(n, h, w) := shape3 t in
  {| shape4 := (n, h, w, 1);
     data4 := map expand_image (data3 t) |}.

Definition repeat_image {A} (repeats : nat) (img : list (list (list A)))
    : list (list (list A)) :=
  map (map (flat_map (fun v => repeat v repeats))) img.

(** [tf.repeat(t, repeats, axis=3)]: every entry along the last axis is
    repeated in place. *)
Definition tf_repeat_3 {A} (t : Tensor4 A) (repeats : nat) : Tensor4 A :=
  let '(n, h, w, c) := shape4 t in
  {| shape4 := (n, h, w, c * repeats);
     data4 := map (repeat_image repeats) (data4 t) |}.

(** [t[-k:, :, :, :]]: the last [k] entries along the first axis, all of them
    when there are fewer than [k]. *)
Definition slice_last {A} (t : Tensor4 A) (k : nat) : Tensor4 A :=
  let '(n, h, w, c) := shape4 t in
  {| shape4 := (n - (n - k), h, w, c);
     data4 := skipn (n - k) (data4 t) |}.

(** [t[:-k, :, :, :]]: all but the last [k] entries along the first axis. *)
Definition slice_but_last {A} (t : Tensor4 A) (k : nat) : Tensor4 A :=
  let '(n, h, w, c) := shape4 t in
  {| shape4 := (n - k, h, w, c);
     data4 := firstn (n - k) (data4 t) |}.

(** The same two slices on a rank-1 array, [y[-k:]] and [y[:-k]]. *)
Definition slice1_last {A} (y : list A) (k : nat) : list A :=
  skipn (length y - k) y.

Definition slice1_but_last {A} (y : list A) (k : nat) : list A :=
  firstn (length y - k) y.

(** The constants of the script. *)
Definition paddings : (nat * nat) * (nat * nat) * (nat * nat) :=
  ((0, 0), (2, 2), (2, 2)).
Definition scale : uint8 := xff.
Definition channels : nat := 3.
Definition val_size : nat := 2000.

(** Lines 33 to 40 on one of the two image arrays: pad, divide, add the
    channel axis, replicate it. *)
Definition padded (x : Tensor3 uint8) : Tensor3 uint8 := tf_pad x paddings.
Definition scaled (x : Tensor3 uint8) : Tensor3 float32 := truediv (padded x) scale.
Definition expanded (x : Tensor3 uint8) : Tensor4 float32 := tf_expand_dims_3 (scaled x).
Definition preprocess (x : Tensor3 uint8) : Tensor4 float32 :=
  tf_repeat_3 (expanded x) channels.

(** What [datasets.mnist.load_data()] returns:
    [((x_train, y_train), (x_test, y_test))]. *)
Definition loaded : Type :=
  (Tensor3 uint8 * list uint8) * (Tensor3 uint8 * list uint8).

(** The six arrays the script holds after line 45. *)
Record datasets : Type := mkDatasets
  { x_train : Tensor4 float32; y_train : list uint8;
    x_val : Tensor4 float32; y_val : list uint8;
    x_test : Tensor4 float32; y_test : list uint8 }.

(** Lines 33 to 45 as one function of the loaded arrays. *)
Definition prepare (d : loaded) : datasets :=
  let '((x_train0, y_train0), (x_test0, y_test0)) := d in
  let x_train1 := preprocess x_train0 in
  {| x_train := slice_but_last x_train1 val_size;
     y_train := slice1_but_last y_train0 val_size;
     x_val := slice_last x_train1 val_size;
     y_val := slice1_last y_train0 val_size;
     x_test := preprocess x_test0;
     y_test := y_test0 |}.

(** What lines 33 to 40 do to one image of an array whose rows have width
    [w]: the four stages, each on top of the one before. *)
Definition padded_image (w : nat) (img : list (list uint8)) : list (list uint8) :=
  let '(_, p1, p2) := paddings in
  pad_image (fst p2 + w + snd p2) p1 p2 img.

Definition scaled_image (w : nat) (img : list (list uint8)) : list (list float32) :=
  scale_image scale (padded_image w img).

Definition expanded_image (w : nat) (img : list (list uint8))
    : list (list (list float32)) :=
  expand_image (scaled_image w img).

Definition preprocess_image (w : nat) (img : list (list uint8))
    : list (list (list float32)) :=
  repeat_image channels (expanded_image w img).

(** The set [(xs, ys)] has as many images as labels; its image [i] is [f]
    of the loaded image [off + i], and its label [i] is the loaded label
    [off + i]. *)
Definition keeps_labels {X X' L} (f : X -> X') (off : nat)
    (xs0 : list X) (ys0 : list L) (xs : list X') (ys : list L) : Prop :=
  length xs = length ys /\
  forall i, i < length xs ->
    nth_error xs i = option_map f (nth_error xs0 (off + i)) /\
    nth_error ys i = nth_error ys0 (off + i) /\
    off + i < length xs0.

(** The places of a padded [h] x [w] image that the padding added. *)
Definition in_border (h w i j : nat) : bool :=
  (i <? 2) || (2 + h <=? i) || (j <? 2) || (2 + w <=? j).

(** ** The framework interface *)

(** The layers of [tensorflow.keras.layers] the script builds, with the
    arguments it passes. *)
Variant tf_function : Type := local_response_normalization.

Variant layer : Type :=
| Resizing (height width : nat) (interpolation : string)
    (input_shape : nat * nat * nat)
| Conv2D (filters kernel_size strides : nat) (padding : string)
| Lambda (function : tf_function)
| Activation (activation : string)
| MaxPooling2D (pool_size strides : nat)
| Flatten
| Dense (units : nat) (activation : string)
| Dropout (rate : Q).

(** Objects of the framework are references. *)
Variant Model : Type := model_at (addr : nat).
Variant History : Type := history_at (addr : nat).
Variant Figure : Type := figure_at (addr : nat).
Variant Axes : Type := axes_at (addr : nat).

Definition exn : Type := string.

(** The tensor primitives, as places where the framework may raise. *)
Variant tensor_primitive : Type :=
  op_pad | op_truediv | op_expand_dims | op_repeat | op_getitem.

(** The keyword arguments of [model.fit]. [fit_callbacks] is the [callbacks]
    argument by name; the script does not pass it, which is the empty list. *)
Record fit_args : Type := mkFit
  { fit_x : Tensor4 float32;
    fit_y : list uint8;
    batch_size : nat;
    epochs : nat;
    validation_data : option (Tensor4 float32 * list uint8);
    fit_callbacks : list string }.

(** The calls of a script into the interpreter and the framework.  Apart
    from the tensor primitives, a call stands for a whole statement and
    raises when any part of the statement does.  [model_add m l] is
    [m.add(layers.L(...))], [axes_plot axs i hist key] is
    [axs[i].plot(hist.history[key])].
    [model_evaluate] is [model.evaluate(x, y)]. *)
Variant call : Type :=
| py_import (module : string)
| mnist_load_data
| tensor_op (op : tensor_primitive)
| models_Sequential
| model_add (m : Model) (l : layer)
| model_summary (m : Model)
| model_compile (m : Model) (optimizer loss : string) (metrics : list string)
| model_fit (m : Model) (a : fit_args)
| model_evaluate (m : Model) (x : Tensor4 float32) (y : list uint8)
| plt_subplots (nrows ncols : nat) (figsize : nat * nat)
| axes_plot (axs : Axes) (i : nat) (hist : History) (key : string)
| axes_title_set_text (axs : Axes) (i : nat) (s : string)
| axes_set_xlabel (axs : Axes) (i : nat) (s : string)
| axes_set_ylabel (axs : Axes) (i : nat) (s : string)
| axes_legend (axs : Axes) (i : nat) (labels : list string).

Definition result_type (c : call) : Type :=
  match c with
  | mnist_load_data => loaded
  | models_Sequential => Model
  | model_fit _ _ => History
  | model_evaluate _ _ _ => list float32
  | plt_subplots _ _ _ => (Figure * Axes)%type
  | _ => unit
  end.

(** What a call returned, for the trace. *)
Variant answer : Type :=
| a_unit
| a_loaded (d : loaded)
| a_model (m : Model)
| a_history (hist : History)
| a_metrics (vs : list float32)
| a_subplots (fig : Figure) (axs : Axes).

Definition answer_of (c : call) : result_type c -> answer :=
  match c with
  | mnist_load_data => a_loaded
  | models_Sequential => a_model
  | model_fit _ _ => a_history
  | model_evaluate _ _ _ => a_metrics
  | plt_subplots _ _ _ => fun r => a_subplots (fst r) (snd r)
  | _ => fun _ => a_unit
  end.

(** ** Programs over the interface *)

(** A program performs calls and continues with what they return; it may
    guard a block with [try ... except] or [try ... finally]. *)
Inductive prog (R : Type) : Type :=
| Ret (r : R)
| Do (c : call) (k : result_type c -> prog R)
| TryExcept (X : Type) (body : prog X) (handler : exn -> prog X) (k : X -> prog R)
| TryFinally (X : Type) (body : prog X) (cleanup : prog unit) (k : X -> prog R).

Arguments Ret {R} r.
Arguments Do {R} c k.
Arguments TryExcept {R X} body handler k.
Arguments TryFinally {R X} body cleanup k.

Fixpoint bind {A B} (p : prog A) (f : A -> prog B) : prog B :=
  match p with
  | Ret r => f r
  | Do c k => Do c (fun x => bind (k x) f)
  | TryExcept body handler k => TryExcept body handler (fun x => bind (k x) f)
  | TryFinally body cleanup k => TryFinally body cleanup (fun x => bind (k x) f)
  end.

Definition perform (c : call) : prog (result_type c) := Do c (fun x => Ret x).

(** A tensor primitive: the framework raises, or the value is returned. *)
Definition tf {X} (op : tensor_primitive) (v : X) : prog X :=
  Do (tensor_op op) (fun _ => Ret v).

Declare Scope prog_scope.
Delimit Scope prog_scope with prog.
Notation "x <- p ;; q" := (bind p (fun x => q))
  (at level 61, p at next level, right associativity) : prog_scope.
Notation "' pat <- p ;; q" := (bind p (fun x => let 'pat := x in q))
  (at level 61, pat pattern, p at next level, right associativity) : prog_scope.
Notation "p ;; q" := (bind p (fun _ => q))
  (at level 61, right associativity) : prog_scope.

(** ** Running a program against the framework *)

(** The framework: a state of its own and, for each call, the new state and
    either an exception or the value returned. *)
Definition framework (W : Type) : Type :=
  forall c : call, W -> W * (exn + result_type c).

Definition event : Type := (call * (exn + answer))%type.

Record run_result (W R : Type) : Type := mkRun
  { trace : list event; final : W; outcome : exn + R }.

Definition answered (c : call) (r : exn + result_type c) : event :=
  (c, match r with inl e => inl e | inr x => inr (answer_of c x) end).

Definition after {W R} (evs : list event) (r : run_result W R) : run_result W R :=
  {| trace := evs ++ trace r; final := final r; outcome := outcome r |}.

Fixpoint run {W R} (fw : framework W) (p : prog R) (w : W) : run_result W R :=
  match p with
  | Ret r => {| trace := []; final := w; outcome := inr r |}
  | Do c k =>
      let (w', r) := fw c w in
      match r with
      | inl e => {| trace := [answered c (inl e)]; final := w'; outcome := inl e |}
      | inr x => after [answered c (inr x)] (run fw (k x) w')
      end
  | TryExcept body handler k =>
      let rb := run fw body w in
      match outcome rb with
      | inr x => after (trace rb) (run fw (k x) (final rb))
      | inl e =>
          let rh := run fw (handler e) (final rb) in
          match outcome rh with
          | inr x => after (trace rb ++ trace rh) (run fw (k x) (final rh))
          | inl e' => {| trace := trace rb ++ trace rh; final := final rh;
                         outcome := inl e' |}
          end
      end
  | TryFinally body cleanup k =>
      let rb := run fw body w in
      let rc := run fw cleanup (final rb) in
      match outcome rc, outcome rb with
      | inl e', _ => {| trace := trace rb ++ trace rc; final := final rc;
                        outcome := inl e' |}
      | inr _, inl e => {| trace := trace rb ++ trace rc; final := final rc;
                           outcome := inl e |}
      | inr _, inr x => after (trace rb ++ trace rc) (run fw (k x) (final rc))
      end
  end.

(** A program without a handler of its own. *)
Inductive handler_free {R} : prog R -> Prop :=
| hf_Ret : forall r, handler_free (Ret r)
| hf_Do : forall c k, (forall x, handler_free (k x)) -> handler_free (Do c k).

(** Every call a program can make satisfies [P]. *)
Inductive calls_satisfy {R} (P : call -> Prop) : prog R -> Prop :=
| cs_Ret : forall r, calls_satisfy P (Ret r)
| cs_Do : forall c k,
    P c -> (forall x, calls_satisfy P (k x)) -> calls_satisfy P (Do c k).

(** [ends_with p Q]: whatever the calls of [p] return, when all of them
    return, [Q] holds of the events and of the value [p] ends with.  A guarded
    block is outside its reach. *)
Fixpoint ends_with {R} (p : prog R) (Q : list event -> R -> Prop) : Prop :=
  match p with
  | Ret r => Q [] r
  | Do c k =>
      forall x, ends_with (k x) (fun evs r => Q ((c, inr (answer_of c x)) :: evs) r)
  | TryExcept _ _ _ => False
  | TryFinally _ _ _ => False
  end.

(** ** The script *)

Local Open Scope string_scope.
Local Open Scope prog_scope.

(** Lines 33 to 122, given what line 31 loaded. *)
Definition script_from (d : loaded) : prog unit :=
  let '((x_train, y_train), (x_test, y_test)) := d in
  (* 33, 34 *)
  x_train <- tf op_pad (tf_pad x_train ((0, 0), (2, 2), (2, 2))) ;;
  x_train <- tf op_truediv (truediv x_train xff) ;;
  x_test <- tf op_pad (tf_pad x_test ((0, 0), (2, 2), (2, 2))) ;;
  x_test <- tf op_truediv (truediv x_test xff) ;;
  (* 36, 37 *)
  x_train <- tf op_expand_dims (tf_expand_dims_3 x_train) ;;
  x_test <- tf op_expand_dims (tf_expand_dims_3 x_test) ;;
  (* 39, 40 *)
  x_train <- tf op_repeat (tf_repeat_3 x_train 3) ;;
  x_test <- tf op_repeat (tf_repeat_3 x_test 3) ;;
  (* 42 to 45 *)
  x_val <- tf op_getitem (slice_last x_train 2000) ;;
  y_val <- tf op_getitem (slice1_last y_train 2000) ;;
  x_train <- tf op_getitem (slice_but_last x_train 2000) ;;
  y_train <- tf op_getitem (slice1_but_last y_train 2000) ;;
  (* 67, 68 *)
  model <- perform models_Sequential ;;
  perform (model_add model (Resizing 224 224 "bilinear" (shape_tail x_train))) ;;
  (* 70 to 73 *)
  perform (model_add model (Conv2D 96 11 4 "same")) ;;
  perform (model_add model (Lambda local_response_normalization)) ;;
  perform (model_add model (Activation "relu")) ;;
  perform (model_add model (MaxPooling2D 3 2)) ;;
  (* 75 to 78 *)
  perform (model_add model (Conv2D 256 5 4 "same")) ;;
  perform (model_add model (Lambda local_response_normalization)) ;;
  perform (model_add model (Activation "relu")) ;;
  perform (model_add model (MaxPooling2D 3 2)) ;;
  (* 80 to 83 *)
  perform (model_add model (Conv2D 384 3 4 "same")) ;;
  perform (model_add model (Activation "relu")) ;;
  perform (model_add model (Conv2D 384 3 4 "same")) ;;
  perform (model_add model (Activation "relu")) ;;
  (* 85, 86 *)
  perform (model_add model (Conv2D 256 3 4 "same")) ;;
  perform (model_add model (Activation "relu")) ;;
  (* 88 *)
  perform (model_add model Flatten) ;;
  (* 90, 91 *)
  perform (model_add model (Dense 4096 "relu")) ;;
  perform (model_add model (Dropout (1 # 2))) ;;
  (* 93, 94 *)
  perform (model_add model (Dense 4096 "relu")) ;;
  perform (model_add model (Dropout (1 # 2))) ;;
  (* 96 *)
  perform (model_add model (Dense 10 "softmax")) ;;
  (* 100 *)
  perform (model_summary model) ;;
  (* 104 *)
  perform (model_compile model "adam" "sparse_categorical_crossentropy"
             ["accuracy"]) ;;
  (* 106 *)
  history <- perform (model_fit model
                        {| fit_x := x_train; fit_y := y_train;
                           batch_size := 64; epochs := 40;
                           validation_data := Some (x_val, y_val);
                           fit_callbacks := [] |}) ;;
  (* 110 to 116 *)
  '(fig, axs) <- perform (plt_subplots 2 1 (15, 15)) ;;
  perform (axes_plot axs 0 history "loss") ;;
  perform (axes_plot axs 0 history "val_loss") ;;
  perform (axes_title_set_text axs 0 "Training Loss vs Validation Loss") ;;
  perform (axes_set_xlabel axs 0 "Epochs") ;;
  perform (axes_set_ylabel axs 0 "Loss") ;;
  perform (axes_legend axs 0 ["Train"; "Val"]) ;;
  (* 117 to 122 *)
  perform (axes_plot axs 1 history "accuracy") ;;
  perform (axes_plot axs 1 history "val_accuracy") ;;
  perform (axes_title_set_text axs 1 "Training Accuracy vs Validation Accuracy") ;;
  perform (axes_set_xlabel axs 1 "Epochs") ;;
  perform (axes_set_ylabel axs 1 "Accuracy") ;;
  perform (axes_legend axs 1 ["Train"; "Val"]).

(** The whole script: the imports of lines 21 to 23, the load of line 31, and
    the rest. *)
Definition script : prog unit :=
  perform (py_import "tensorflow") ;;
  perform (py_import "matplotlib.pyplot") ;;
  perform (py_import "tensorflow.keras") ;;
  d <- perform mnist_load_data ;;
  script_from d.

Local Close Scope prog_scope.
Local Close Scope string_scope.

(** ** Reading a trace *)

Definition succeeded (ev : event) : Prop :=
  match snd ev with inr _ => True | inl _ => False end.

(** The events are the framework's answers to consecutive calls from state
    [w], and [w'] is the state it was left in. *)
Fixpoint answers {W} (fw : framework W) (w : W) (evs : list event) (w' : W) : Prop :=
  match evs with
  | [] => w' = w
  | ev :: rest =>
      ev = answered (fst ev) (snd (fw (fst ev) w)) /\
      answers fw (fst (fw (fst ev) w)) rest w'
  end.

Definition is_evaluate (c : call) : bool :=
  match c with model_evaluate _ _ _ => true | _ => false end.

(** The models created, and the layers added to them, in order. *)
Definition models_created (tr : list event) : list Model :=
  flat_map (fun ev => match ev with
                      | (models_Sequential, inr (a_model m)) => [m]
                      | _ => []
                      end) tr.

Definition layers_added (tr : list event) : list (Model * layer) :=
  flat_map (fun ev => match ev with
                      | (model_add m l, inr _) => [(m, l)]
                      | _ => []
                      end) tr.

Definition conv_filters (ls : list layer) : list nat :=
  flat_map (fun l => match l with Conv2D f _ _ _ => [f] | _ => [] end) ls.

Definition input_shapes (ls : list layer) : list (nat * nat * nat) :=
  flat_map (fun l => match l with Resizing _ _ _ s => [s] | _ => [] end) ls.

Definition is_resizing (l : layer) : bool :=
  match l with Resizing _ _ _ _ => true | _ => false end.
Definition is_lrn (l : layer) : bool :=
  match l with Lambda local_response_normalization => true | _ => false end.
Definition is_max_pooling (l : layer) : bool :=
  match l with MaxPooling2D _ _ => true | _ => false end.
Definition is_flatten (l : layer) : bool :=
  match l with Flatten => true | _ => false end.

(** The dense layers, each with the rate of the dropout layer right after it
    when there is one. *)
Fixpoint dense_layers (ls : list layer) : list (nat * string * option Q) :=
  match ls with
  | [] => []
  | Dense u a :: rest =>
      (u, a, match rest with Dropout r :: _ => Some r | _ => None end)
        :: dense_layers rest
  | _ :: rest => dense_layers rest
  end.

(** The calls of [model.fit], what they returned, what [plt.subplots]
    returned, the series plotted and the metrics compiled in. *)
Definition fit_calls (tr : list event) : list (Model * fit_args) :=
  flat_map (fun ev => match fst ev with model_fit m a => [(m, a)] | _ => [] end) tr.

Definition fit_returned (tr : list event) : list History :=
  flat_map (fun ev => match ev with
                      | (model_fit _ _, inr (a_history h)) => [h]
                      | _ => []
                      end) tr.

Definition subplots_returned (tr : list event) : list Axes :=
  flat_map (fun ev => match ev with
                      | (plt_subplots _ _ _, inr (a_subplots _ axs)) => [axs]
                      | _ => []
                      end) tr.

Definition plotted (tr : list event) : list (Axes * nat * History * string) :=
  flat_map (fun ev => match fst ev with
                      | axes_plot axs i h key => [(axs, i, h, key)]
                      | _ => []
                      end) tr.

Definition compiled_metrics (tr : list event) : list (list string) :=
  flat_map (fun ev => match fst ev with
                      | model_compile _ _ _ ms => [ms]
                      | _ => []
                      end) tr.

(** ** The trainer *)

(** [model.fit] is the framework's.  Its contract, as far as the script
    relies on it: one pass over the batches per epoch, for [epochs] epochs,
    ended early only when a callback sets [stop_training] at the end of an
    epoch; the history records, per epoch, the loss and every compiled
    metric, and the same again under [val_] when validation data is given. *)
Section Trainer.
Variables weights logs : Type.
Variable train_epoch : nat -> weights -> weights * logs.
Variable stop_training : string -> nat -> logs -> bool.

Fixpoint fit_loop (callbacks : list string) (remaining epoch : nat) (s : weights)
    : weights * list logs :=
  match remaining with
  | 0 => (s, [])
  | S r =>
      let (s', l) := train_epoch epoch s in
      if existsb (fun cb => stop_training cb epoch l) callbacks
      then (s', [l])
      else let (s'', ls) := fit_loop callbacks r (S epoch) s' in (s'', l :: ls)
  end.

Definition keras_fit (a : fit_args) (s : weights) : weights * list logs :=
  fit_loop (fit_callbacks a) (epochs a) 0 s.
End Trainer.

Definition history_keys (metrics : list string) (validation : bool) : list string :=
  let names := "loss"%string :: metrics in
  names ++ (if validation then map (String.append "val_") names else []).

(** ** The value of a [float32] *)

(** The rational a finite [float32] stands for; division is rounded to the
    nearest [float32], as IEEE 754 has it. *)
Definition f32_to_Q (v : float32) : Q :=
  match v with
  | S754_finite s m e =>
      let q := (inject_Z (Z.pos m) * Qpower 2 e)%Q in
      if s then Qopp q else q
  | _ => 0%Q
  end.

Definition f32_leb (x y : float32) : bool := SFleb x y.

(** ** Frameworks and data to run the script on *)

(** A framework that never raises: it loads [d] and hands out fresh
    references, counting them in its state. *)
Definition fw_fresh (d : loaded) : framework nat :=
  fun c w =>
    (S w,
     match c return exn + result_type c with
     | mnist_load_data => inr d
     | models_Sequential => inr (model_at w)
     | model_fit _ _ => inr (history_at w)
     | model_evaluate _ _ _ => inr []
     | plt_subplots _ _ _ => inr (figure_at w, axes_at w)
     | _ => inr tt
     end).

(** The same framework, except that [model.fit] raises. *)
Definition fw_fit_raises (d : loaded) : framework nat :=
  fun c w =>
    match c return nat * (exn + result_type c) with
    | model_fit _ _ => (S w, inl "ResourceExhaustedError"%string)
    | c' => fw_fresh d c' w
    end.

(** A 28 x 28 image: [p] in the top left corner, [q] elsewhere. *)
Definition image28 (p q : uint8) : list (list uint8) :=
  (p :: repeat q 27) :: repeat (repeat q 28) 27.

(** Two training images and one test image. *)
Definition tiny_mnist : loaded :=
  (({| shape3 := (2, 28, 28); data3 := [image28 xff x00; image28 x80 x07] |},
    [x05; x00]),
   ({| shape3 := (1, 28, 28); data3 := [image28 x01 xfe] |}, [x07])).

(** 2001 training images and one test image. *)
Definition small_mnist : loaded :=
  (({| shape3 := (2001, 28, 28);
       data3 := image28 xff x00 :: repeat (image28 x80 x07) 2000 |},
    x05 :: repeat x03 2000),
   ({| shape3 := (1, 28, 28); data3 := [image28 x01 xfe] |}, [x07])).

(** ** Reading a pixel back *)

(** The [uint8] a [float32] in [0, 1] stands for on the scale of 255: the
    nearest integer to 255 times its value. *)
Definition quantize (v : float32) : N :=
  Z.to_N (Qfloor (f32_to_Q v * 255 + (1 # 2))%Q).

(** ** All runs *)

(** [always p Q]: whatever the calls of [p] return or raise, [Q] holds of the
    events of the run.  A guarded block is outside its reach. *)
Fixpoint always {R} (p : prog R) (Q : list event -> Prop) : Prop :=
  match p with
  | Ret _ => Q []
  | Do c k =>
      (forall e, Q [(c, inl e)]) /\
      forall x, always (k x) (fun evs => Q ((c, inr (answer_of c x)) :: evs))
  | TryExcept _ _ _ => False
  | TryFinally _ _ _ => False
  end.

(** The Python name of a call. *)
Definition call_name (c : call) : string :=
  match c with
  | py_import _ => "import"
  | mnist_load_data => "datasets.mnist.load_data"
  | tensor_op op_pad => "tf.pad"
  | tensor_op op_truediv => "truediv"
  | tensor_op op_expand_dims => "tf.expand_dims"
  | tensor_op op_repeat => "tf.repeat"
  | tensor_op op_getitem => "getitem"
  | models_Sequential => "models.Sequential"
  | model_add _ _ => "model.add"
  | model_summary _ => "model.summary"
  | model_compile _ _ _ _ => "model.compile"
  | model_fit _ _ => "model.fit"
  | model_evaluate _ _ _ => "model.evaluate"
  | plt_subplots _ _ _ => "plt.subplots"
  | axes_plot _ _ _ _ => "plot"
  | axes_title_set_text _ _ _ => "title.set_text"
  | axes_set_xlabel _ _ _ => "set_xlabel"
  | axes_set_ylabel _ _ _ => "set_ylabel"
  | axes_legend _ _ _ => "legend"
  end%string.

(** The calls on [matplotlib]. *)
Definition is_figure_call (c : call) : bool :=
  match c with
  | plt_subplots _ _ _ | axes_plot _ _ _ _ | axes_title_set_text _ _ _
  | axes_set_xlabel _ _ _ | axes_set_ylabel _ _ _ | axes_legend _ _ _ => true
  | _ => false
  end.

(** The calls on a model, each with the model it is made on. *)
Definition model_calls (tr : list event) : list (Model * string) :=
  flat_map (fun ev => match fst ev with
                      | model_add m _ | model_summary m
                      | model_compile m _ _ _ | model_fit m _
                      | model_evaluate m _ _ => [(m, call_name (fst ev))]
                      | _ => []
                      end) tr.

Definition compile_calls (tr : list event) : list (string * string * list string) :=
  flat_map (fun ev => match fst ev with
                      | model_compile _ o l ms => [(o, l, ms)]
                      | _ => []
                      end) tr.

(** ** Output shapes *)

(** The layers are the framework's.  The shape each of them gives to one
    example, as Keras documents it: a convolution with [padding="same"]
    and stride [s] takes a length [n] to the ceiling of [n / s], one with
    [padding="valid"] and a pooling window [k] (there is no other padding for
    [MaxPooling2D(k, strides=s)]) take it to [(n - k) / s + 1] and need
    [k <= n]; [Flatten] multiplies the lengths; [Dense] replaces the last
    length; the other layers keep the shape. *)
Definition window_length (padding : string) (n k s : nat) : option nat :=
  if String.eqb padding "same" then Some ((n + s - 1) / s)
  else if String.eqb padding "valid"
       then if n <? k then None else Some ((n - k) / s + 1)
       else None.

Definition output_shape (l : layer) (s : list nat) : option (list nat) :=
  match l, s with
  | Resizing h w _ _, [_; _; c] => Some [h; w; c]
  | Conv2D f k st p, [h; w; _] =>
      match window_length p h k st, window_length p w k st with
      | Some h', Some w' => Some [h'; w'; f]
      | _, _ => None
      end
  | Lambda local_response_normalization, [h; w; c] => Some [h; w; c]
  | Activation _, _ => Some s
  | MaxPooling2D k st, [h; w; c] =>
      match window_length "valid" h k st, window_length "valid" w k st with
      | Some h', Some w' => Some [h'; w'; c]
      | _, _ => None
      end
  | Flatten, _ => Some [fold_right Nat.mul 1 s]
  | Dense u _, _ :: _ => Some (removelast s ++ [u])
  | Dropout _, _ => Some s
  | _, _ => None
  end.

(** The shapes after each layer of a stack, [None] when a layer does not
    accept the shape it is given. *)
Fixpoint output_shapes (ls : list layer) (s : list nat) : option (list (list nat)) :=
  match ls with
  | [] => Some []
  | l :: rest =>
      match output_shape l s with
      | Some s' =>
          match output_shapes rest s' with
          | Some ss => Some (s' :: ss)
          | None => None
          end
      | None => None
      end
  end.

(** ** Tactics *)

(** Walks a program made of calls only, call by call. *)
Ltac script_calls :=
  repeat (first [ apply cs_Ret
                | apply cs_Do; [ simpl; try tauto; try easy | intros [? ?] ]
                | apply cs_Do; [ simpl; try tauto; try easy | intros ? ] ]).

(** Proves [ends_with (script ...) Q]: names what each call returned and
    leaves [Q] at the trace. *)
Ltac script_ends :=
  unfold script, script_from, perform, tf;
  cbn [bind ends_with];
  repeat (first [ intros [[? ?] [? ?]] | intros [? ?] | intros ? ]);
  cbn [answer_of fst snd].

(** Reduces a goal about the trace of a run that ended normally, [H], to
    [ends_with]. *)
Ltac by_ends_with lem H :=
  cbv zeta;
  match goal with
  | |- context [trace (run ?fw ?p ?w)] =>
      pattern (trace (run fw p w));
      match goal with
      | |- ?P _ => apply (lem p P); [|exact H]
      end
  end.

(** * Properties *)

(** ** Shapes *)

Section Shapes.
Context {A : Type}.

Lemma pad_axis_length (z : A) (p : nat * nat) (l : list A) :
  length (pad_axis z p l) = fst p + length l + snd p.
Proof.
  unfold pad_axis. rewrite !length_app, !repeat_length. lia.
Qed.

Lemma Forall_pad_axis (P : A -> Prop) (z : A) (p : nat * nat) (l : list A) :
  P z -> Forall P l -> Forall P (pad_axis z p l).
Proof.
  intros Hz Hl. unfold pad_axis.
  rewrite !Forall_app. repeat split; auto using Forall_forall.
  - apply Forall_forall. intros x Hx. apply repeat_spec in Hx. now subst.
  - apply Forall_forall. intros x Hx. apply repeat_spec in Hx. now subst.
Qed.

Lemma Forall_repeat (P : A -> Prop) (z : A) (k : nat) :
  P z -> Forall P (repeat z k).
Proof.
  intros Hz. apply Forall_forall. intros x Hx.
  apply repeat_spec in Hx. now subst.
Qed.

Lemma flat_map_repeat_length (r : nat) (l : list A) :
  length (flat_map (fun v => repeat v r) l) = length l * r.
Proof.
  induction l as [|v l IH]; simpl; [reflexivity|].
  rewrite length_app, repeat_length, IH. reflexivity.
Qed.

Lemma has_shape2_map {B} (f : A -> B) (h w : nat) (img : list (list A)) :
  has_shape2 h w img -> has_shape2 h w (map (map f) img).
Proof.
  intros [Hh Hw]. split.
  - now rewrite length_map.
  - rewrite Forall_map. eapply Forall_impl; [|exact Hw].
    intros row Hrow. simpl. now rewrite length_map.
Qed.

Lemma expand_image_shape (h w : nat) (img : list (list A)) :
  has_shape2 h w img -> has_shape3 h w 1 (expand_image img).
Proof.
  intros [Hh Hw]. unfold expand_image. split.
  - now rewrite length_map.
  - rewrite Forall_map. eapply Forall_impl; [|exact Hw].
    intros row Hrow. simpl. split.
    + now rewrite length_map.
    + rewrite Forall_map. apply Forall_forall. reflexivity.
Qed.

Lemma repeat_image_shape (r h w c : nat) (img : list (list (list A))) :
  has_shape3 h w c img -> has_shape3 h w (c * r) (repeat_image r img).
Proof.
  intros [Hh Hw]. unfold repeat_image. split.
  - now rewrite length_map.
  - rewrite Forall_map. eapply Forall_impl; [|exact Hw].
    intros row [Hrow Hpx]. simpl. split.
    + now rewrite length_map.
    + rewrite Forall_map. eapply Forall_impl; [|exact Hpx].
      intros px Hc. simpl in *. now rewrite flat_map_repeat_length, Hc.
Qed.

Lemma wf4_slice_last (t : Tensor4 A) (k : nat) : wf4 t -> wf4 (slice_last t k).
Proof.
  unfold wf4, slice_last. destruct t as [[[[n h] w] c] xs]. simpl.
  intros [Hn Hxs]. split.
  - rewrite length_skipn. lia.
  - rewrite <- (firstn_skipn (n - k) xs) in Hxs.
    now apply Forall_app in Hxs.
Qed.

Lemma wf4_slice_but_last (t : Tensor4 A) (k : nat) :
  wf4 t -> wf4 (slice_but_last t k).
Proof.
  unfold wf4, slice_but_last. destruct t as [[[[n h] w] c] xs]. simpl.
  intros [Hn Hxs]. split.
  - rewrite length_firstn. lia.
  - rewrite <- (firstn_skipn (n - k) xs) in Hxs.
    now apply Forall_app in Hxs.
Qed.

Lemma wf4_expand_dims (t : Tensor3 A) : wf3 t -> wf4 (tf_expand_dims_3 t).
Proof.
  unfold wf3, wf4, tf_expand_dims_3. destruct t as [[[n h] w] xs]. simpl.
  intros [Hn Hxs]. split.
  - now rewrite length_map.
  - rewrite Forall_map. eapply Forall_impl; [|exact Hxs].
    intros img. apply expand_image_shape.
Qed.

Lemma wf4_repeat (t : Tensor4 A) (r : nat) : wf4 t -> wf4 (tf_repeat_3 t r).
Proof.
  unfold wf4, tf_repeat_3. destruct t as [[[[n h] w] c] xs]. simpl.
  intros [Hn Hxs]. split.
  - now rewrite length_map.
  - rewrite Forall_map. eapply Forall_impl; [|exact Hxs].
    intros img. apply repeat_image_shape.
Qed.
End Shapes.

Lemma pad_image_shape (h w : nat) (p1 p2 : nat * nat) (img : list (list uint8)) :
  has_shape2 h w img ->
  has_shape2 (fst p1 + h + snd p1) (fst p2 + w + snd p2)
    (pad_image (fst p2 + w + snd p2) p1 p2 img).
Proof.
  intros [Hh Hw]. unfold pad_image. split.
  - rewrite pad_axis_length, length_map. lia.
  - apply Forall_pad_axis.
    + apply repeat_length.
    + rewrite Forall_map. eapply Forall_impl; [|exact Hw].
      intros row Hrow. simpl in *. rewrite pad_axis_length. lia.
Qed.

Lemma wf3_pad (t : Tensor3 uint8) (p : (nat * nat) * (nat * nat) * (nat * nat)) :
  wf3 t -> wf3 (tf_pad t p).
Proof.
  unfold wf3, tf_pad. destruct t as [[[n h] w] xs], p as [[p0 p1] p2]. simpl.
  intros [Hn Hxs]. split.
  - rewrite pad_axis_length, length_map. lia.
  - apply Forall_pad_axis.
    + split; [apply repeat_length|]. apply Forall_repeat, repeat_length.
    + rewrite Forall_map. eapply Forall_impl; [|exact Hxs].
      intros img. apply pad_image_shape.
Qed.

Lemma wf3_truediv (t : Tensor3 uint8) (y : uint8) : wf3 t -> wf3 (truediv t y).
Proof.
  unfold wf3, truediv. destruct t as [[[n h] w] xs]. simpl.
  intros [Hn Hxs]. split.
  - now rewrite length_map.
  - rewrite Forall_map. eapply Forall_impl; [|exact Hxs].
    intros img. apply has_shape2_map.
Qed.

Lemma wf4_preprocess (x : Tensor3 uint8) : wf3 x -> wf4 (preprocess x).
Proof.
  intros H. unfold preprocess, expanded, scaled, padded.
  now apply wf4_repeat, wf4_expand_dims, wf3_truediv, wf3_pad.
Qed.

Lemma shape_preprocess (x : Tensor3 uint8) (n h w : nat) :
  shape3 x = (n, h, w) -> shape4 (preprocess x) = (n, 2 + h + 2, 2 + w + 2, 3).
Proof.
  destruct x as [s xs]. simpl. intros ->. cbn.
  now rewrite Nat.add_0_r.
Qed.

(** ** Image by image *)

(** Each stage of the preprocessing works image by image. *)
Lemma padded_data (x : Tensor3 uint8) (n h w : nat) :
  shape3 x = (n, h, w) -> data3 (padded x) = map (padded_image w) (data3 x).
Proof.
  destruct x as [s xs]. simpl. intros ->.
  unfold padded, tf_pad, paddings, padded_image, pad_axis. simpl.
  now rewrite app_nil_r.
Qed.

Lemma scaled_data (x : Tensor3 uint8) (n h w : nat) :
  shape3 x = (n, h, w) -> data3 (scaled x) = map (scaled_image w) (data3 x).
Proof.
  intros E. unfold scaled, truediv. cbn [data3].
  rewrite (padded_data x E), map_map. reflexivity.
Qed.

Lemma expanded_data (x : Tensor3 uint8) (n h w : nat) :
  shape3 x = (n, h, w) -> data4 (expanded x) = map (expanded_image w) (data3 x).
Proof.
  intros E. unfold expanded, tf_expand_dims_3.
  destruct (shape3 (scaled x)) as [[n0 h0] w0]. cbn [data4].
  rewrite (scaled_data x E), map_map. reflexivity.
Qed.

Lemma preprocess_data (x : Tensor3 uint8) (n h w : nat) :
  shape3 x = (n, h, w) ->
  data4 (preprocess x) = map (preprocess_image w) (data3 x).
Proof.
  intros E. unfold preprocess, tf_repeat_3.
  destruct (shape4 (expanded x)) as [[[n0 h0] w0] c0]. cbn [data4].
  rewrite (expanded_data x E), map_map. reflexivity.
Qed.

Lemma preprocess_length (x : Tensor3 uint8) :
  length (data4 (preprocess x)) = length (data3 x).
Proof.
  destruct x as [[[n h] w] xs]. simpl. unfold pad_axis. simpl.
  now rewrite !length_map, length_app, length_map, Nat.add_0_r.
Qed.

(** ** Runs of programs without handlers *)

Lemma calls_satisfy_handler_free {R} (P : call -> Prop) (p : prog R) :
  calls_satisfy P p -> handler_free p.
Proof.
  induction 1; constructor; auto.
Qed.

Lemma run_calls_satisfy {R} (P : call -> Prop) (p : prog R) :
  calls_satisfy P p ->
  forall W (fw : framework W) (w : W),
    Forall (fun ev => P (fst ev)) (trace (run fw p w)).
Proof.
  induction 1 as [r|c k Hc Hk IH]; intros W fw w; simpl.
  - constructor.
  - destruct (fw c w) as [w' [e|x]]; simpl.
    + repeat constructor. exact Hc.
    + constructor; [exact Hc|]. apply IH.
Qed.

(** Without a handler the trace is the framework's answers one after the
    other; it stops at the first exception, which is the outcome. *)
Lemma handler_free_run {R} (p : prog R) :
  handler_free p ->
  forall W (fw : framework W) (w : W),
    answers fw w (trace (run fw p w)) (final (run fw p w)) /\
    match outcome (run fw p w) with
    | inl e => exists evs c, trace (run fw p w) = evs ++ [(c, inl e)] /\
                             Forall succeeded evs
    | inr _ => Forall succeeded (trace (run fw p w))
    end.
Proof.
  induction 1 as [r|c k Hk IH]; intros W fw w; simpl.
  - split; [reflexivity|constructor].
  - destruct (fw c w) as [w' [e|x]] eqn:E; simpl.
    + rewrite E. simpl. split; [now split|].
      exists [], c. split; [reflexivity|constructor].
    + rewrite E. simpl. destruct (IH x W fw w') as [Ha Ho].
      split; [now split|].
      destruct (outcome (run fw (k x) w')) as [e|r].
      * destruct Ho as (evs & c' & -> & Hevs).
        exists (answered c (inr x) :: evs), c'. split; [reflexivity|].
        constructor; [exact I|exact Hevs].
      * constructor; [exact I|exact Ho].
Qed.

Lemma succeeded_last_raised (evs evs' : list event) (c : call) (e : exn) :
  Forall succeeded evs -> evs = evs' ++ [(c, inl e)] -> False.
Proof.
  intros H ->. apply Forall_app in H as [_ H].
  inversion H as [|? ? Hf _]. exact Hf.
Qed.

Lemma script_from_handler_free (d : loaded) : handler_free (script_from d).
Proof.
  apply (calls_satisfy_handler_free (P := fun _ => True)).
  destruct d as [[x y] [x' y']]. unfold script_from, perform, tf.
  cbn [bind]. script_calls.
Qed.

Lemma script_handler_free : handler_free script.
Proof.
  unfold script, perform. cbn [bind].
  do 4 (constructor; intros ?). apply script_from_handler_free.
Qed.

(** ** Exceptions *)

(** C8. The script has no exception handler.  Run against any framework, its
    trace is the framework's answers to consecutive calls; it raises [e]
    exactly when the last call it made raised [e], every call before that one
    having returned, and nothing runs after it; it ends normally exactly when
    every call returned. *)
Theorem script_propagates_exceptions :
  handler_free script /\
  forall W (fw : framework W) (w : W),
    let r := run fw script w in
    answers fw w (trace r) (final r) /\
    (forall e, outcome r = inl e <->
               exists evs c, trace r = evs ++ [(c, inl e)] /\ Forall succeeded evs) /\
    (outcome r = inr tt <-> Forall succeeded (trace r)).
Proof.
  split; [exact script_handler_free|].
  intros W fw w r.
  destruct (handler_free_run script_handler_free fw w) as [Ha Ho].
  fold r in Ha, Ho. split; [exact Ha|]. split.
  - intros e. split.
    + intros He. now rewrite He in Ho.
    + intros (evs & c & Htr & Hevs).
      destruct (outcome r) as [e'|[]].
      * destruct Ho as (evs' & c' & Htr' & _).
        rewrite Htr in Htr'. apply app_inj_tail in Htr' as [_ Heq].
        now inversion Heq.
      * exfalso. eapply succeeded_last_raised; [exact Ho|exact Htr].
  - split.
    + intros He. now rewrite He in Ho.
    + intros Hall. destruct (outcome r) as [e|[]]; [|reflexivity].
      destruct Ho as (evs & c & Htr & _).
      exfalso. eapply succeeded_last_raised; [exact Hall|exact Htr].
Qed.

(** With a handler the same exception is swallowed: the claim is about the
    script, not about programs in general. *)
Example try_except_recovers :
  outcome (run (fw_fit_raises tiny_mnist)
             (TryExcept (perform (model_fit (model_at 0)
                                    (mkFit (preprocess (fst (fst tiny_mnist)))
                                       [] 64 40 None [])))
                        (fun _ => Ret (history_at 0)) (fun _ => Ret tt)) 0)
  = inr tt.
Proof. reflexivity. Qed.

(** ** No evaluation on the test set *)

(** C1. Whatever the framework does, the script never calls
    [model.evaluate]; and what it does after loading does not depend on the
    test set at all. *)
Theorem script_never_evaluates :
  (forall W (fw : framework W) (w : W),
      Forall (fun ev => is_evaluate (fst ev) = false) (trace (run fw script w))) /\
  (forall train test test', script_from (train, test) = script_from (train, test')).
Proof.
  split.
  - intros W fw w.
    apply (run_calls_satisfy (P := fun c => is_evaluate c = false)).
    unfold script, perform. cbn [bind].
    do 3 (apply cs_Do; [reflexivity|intros ?]).
    apply cs_Do; [reflexivity|intros [[xa ya] [xb yb]]].
    unfold script_from, perform, tf. cbn [bind]. script_calls.
  - intros [x y] [x' y'] [x'' y'']. reflexivity.
Qed.

(** ** The calls of a run that ends normally *)

Lemma ends_with_run {R} (p : prog R) :
  forall (Q : list event -> R -> Prop),
    ends_with p Q ->
    forall W (fw : framework W) (w : W) (r : R),
      outcome (run fw p w) = inr r -> Q (trace (run fw p w)) r.
Proof.
  induction p as [R r0|R c k IH|R X body IHb handler IHh k IHk
                 |R X body IHb cleanup IHc k IHk];
    intros Q HQ W fw w res; simpl in *; try contradiction.
  - intros Hr. injection Hr as Hr. now rewrite <- Hr.
  - destruct (fw c w) as [w' [e|x]]; simpl; [discriminate|].
    intros Hr. exact (IH x _ (HQ x) W fw w' res Hr).
Qed.

Lemma ends_with_run_trace (p : prog unit) (P : list event -> Prop) :
  ends_with p (fun evs _ => P evs) ->
  forall W (fw : framework W) (w : W),
    outcome (run fw p w) = inr tt -> P (trace (run fw p w)).
Proof.
  intros HP W fw w H.
  exact (ends_with_run p (fun evs _ => P evs) HP fw w H).
Qed.

(** The arrays handed to [model.fit] are the ones [prepare] computes. *)
Lemma script_from_fits_prepared (d : loaded) W (fw : framework W) (w : W) :
  outcome (run fw (script_from d) w) = inr tt ->
  exists m,
    fit_calls (trace (run fw (script_from d) w)) =
      [(m, {| fit_x := x_train (prepare d); fit_y := y_train (prepare d);
              batch_size := 64; epochs := 40;
              validation_data := Some (x_val (prepare d), y_val (prepare d));
              fit_callbacks := [] |})].
Proof.
  intros H. by_ends_with ends_with_run_trace H.
  destruct d as [[xa ya] [xb yb]]. script_ends.
  eexists. reflexivity.
Qed.

(** ** The model *)

Local Open Scope string_scope.

(** C4. In a run that ends normally one model is created, every layer is
    added to it, and the layers are, in order: the resizing layer, five
    convolutions of 96, 256, 384, 384 and 256 filters, of which the first two
    are each followed by local response normalization and, after the
    activation, by max pooling, a flatten layer, two dense layers of 4096
    units each followed by dropout at rate 1/2, and a last dense layer of 10
    units with softmax. *)
Theorem model_is_sequential_stack W (fw : framework W) (w : W) :
  outcome (run fw script w) = inr tt ->
  exists m s,
    let tr := trace (run fw script w) in
    let ls := map snd (layers_added tr) in
    models_created tr = [m] /\
    Forall (fun ml => fst ml = m) (layers_added tr) /\
    ls = [ Resizing 224 224 "bilinear" s;
           Conv2D 96 11 4 "same"; Lambda local_response_normalization;
           Activation "relu"; MaxPooling2D 3 2;
           Conv2D 256 5 4 "same"; Lambda local_response_normalization;
           Activation "relu"; MaxPooling2D 3 2;
           Conv2D 384 3 4 "same"; Activation "relu";
           Conv2D 384 3 4 "same"; Activation "relu";
           Conv2D 256 3 4 "same"; Activation "relu";
           Flatten;
           Dense 4096 "relu"; Dropout (1 # 2);
           Dense 4096 "relu"; Dropout (1 # 2);
           Dense 10 "softmax" ] /\
    length (filter is_resizing ls) = 1 /\
    conv_filters ls = [96; 256; 384; 384; 256] /\
    length (filter is_lrn ls) = 2 /\
    length (filter is_max_pooling ls) = 2 /\
    length (filter is_flatten ls) = 1 /\
    dense_layers ls = [ (4096, "relu", Some (1 # 2));
                        (4096, "relu", Some (1 # 2));
                        (10, "softmax", None) ] /\
    last ls Flatten = Dense 10 "softmax".
Proof.
  intros H. by_ends_with ends_with_run_trace H.
  script_ends.
  eexists. eexists.
  split; [reflexivity|]. split; [repeat constructor|].
  repeat split; reflexivity.
Qed.

Lemma model_is_sequential_stack_witness :
  outcome (run (fw_fresh tiny_mnist) script 0) = inr tt /\
  exists s,
    map snd (layers_added (trace (run (fw_fresh tiny_mnist) script 0)))
    = [ Resizing 224 224 "bilinear" s;
        Conv2D 96 11 4 "same"; Lambda local_response_normalization;
        Activation "relu"; MaxPooling2D 3 2;
        Conv2D 256 5 4 "same"; Lambda local_response_normalization;
        Activation "relu"; MaxPooling2D 3 2;
        Conv2D 384 3 4 "same"; Activation "relu";
        Conv2D 384 3 4 "same"; Activation "relu";
        Conv2D 256 3 4 "same"; Activation "relu";
        Flatten;
        Dense 4096 "relu"; Dropout (1 # 2);
        Dense 4096 "relu"; Dropout (1 # 2);
        Dense 10 "softmax" ].
Proof.
  split; [vm_compute; reflexivity|].
  destruct (@model_is_sequential_stack nat (fw_fresh tiny_mnist) 0)
    as (m & s & _ & _ & Hls & _); [vm_compute; reflexivity|].
  exists s. exact Hls.
Defined.

Local Close Scope string_scope.

(** ** Training *)

Lemma fit_loop_no_callbacks (weights logs : Type)
    (train_epoch : nat -> weights -> weights * logs)
    (stop_training : string -> nat -> logs -> bool) (n epoch : nat) (s : weights) :
  length (snd (fit_loop train_epoch stop_training [] n epoch s)) = n.
Proof.
  revert epoch s. induction n as [|n IH]; intros epoch s; simpl.
  - reflexivity.
  - destruct (train_epoch epoch s) as [s' l]. simpl.
    specialize (IH (S epoch) s').
    destruct (fit_loop train_epoch stop_training [] n (S epoch) s') as [s'' ls].
    simpl in *. now rewrite IH.
Qed.

(** C5. In a run that ends normally [model.fit] is called once, with
    [batch_size=64], [epochs=40] and no callback, whatever was loaded and
    whatever the framework returned before; with these arguments the
    trainer's loop runs 40 epochs, for every behaviour of an epoch, and then
    returns. *)
Theorem fit_runs_forty_epochs W (fw : framework W) (w : W) :
  outcome (run fw script w) = inr tt ->
  exists m a,
    fit_calls (trace (run fw script w)) = [(m, a)] /\
    batch_size a = 64 /\ epochs a = 40 /\ fit_callbacks a = [] /\
    forall (weights logs : Type)
           (train_epoch : nat -> weights -> weights * logs)
           (stop_training : string -> nat -> logs -> bool) (s : weights),
      length (snd (keras_fit train_epoch stop_training a s)) = 40.
Proof.
  intros H. by_ends_with ends_with_run_trace H.
  script_ends.
  eexists. eexists. split; [reflexivity|].
  repeat split. intros weights logs train_epoch stop_training s.
  apply fit_loop_no_callbacks.
Qed.

Lemma fit_runs_forty_epochs_witness :
  outcome (run (fw_fresh tiny_mnist) script 0) = inr tt /\
  exists m a,
    fit_calls (trace (run (fw_fresh tiny_mnist) script 0)) = [(m, a)] /\
    batch_size a = 64 /\ epochs a = 40 /\ fit_callbacks a = [] /\
    length (snd (keras_fit (fun epoch (s : nat) => (s + 1, epoch))
                   (fun _ _ _ => true) a 0)) = 40.
Proof.
  split; [vm_compute; reflexivity|].
  destruct (@fit_runs_forty_epochs nat (fw_fresh tiny_mnist) 0)
    as (m & a & Hc & Hb & He & Hcb & Hloop); [vm_compute; reflexivity|].
  exists m, a. repeat split; try assumption. apply Hloop.
Defined.

(** A callback, which the script does not pass, could end the loop early. *)
Example callback_stops_early :
  length (snd (fit_loop (fun epoch (s : nat) => (s + 1, epoch))
                 (fun _ epoch _ => 2 <=? epoch)
                 ["EarlyStopping"%string] 40 0 0)) = 3.
Proof. reflexivity. Qed.

(** ** Plots *)

Local Open Scope string_scope.

(** C6. In a run that ends normally the script plots four series and no
    other: on the axes [plt.subplots] returned and from the history
    [model.fit] returned, the keys [loss] and [val_loss] on subplot 0 and
    [accuracy] and [val_accuracy] on subplot 1.  These are the keys a history
    holds for the compiled metric [accuracy] with validation data. *)
Theorem script_plots_history W (fw : framework W) (w : W) :
  outcome (run fw script w) = inr tt ->
  exists hist axs,
    let tr := trace (run fw script w) in
    fit_returned tr = [hist] /\
    subplots_returned tr = [axs] /\
    plotted tr = [ (axs, 0, hist, "loss"); (axs, 0, hist, "val_loss");
                   (axs, 1, hist, "accuracy"); (axs, 1, hist, "val_accuracy") ] /\
    compiled_metrics tr = [["accuracy"]] /\
    map (fun ma => validation_data (snd ma)) (fit_calls tr) <> [None] /\
    history_keys ["accuracy"] true
    = ["loss"; "accuracy"; "val_loss"; "val_accuracy"].
Proof.
  intros H. by_ends_with ends_with_run_trace H.
  script_ends.
  eexists. eexists. repeat split; try reflexivity.
  cbn. discriminate.
Qed.

Lemma script_plots_history_witness :
  outcome (run (fw_fresh tiny_mnist) script 0) = inr tt /\
  exists hist axs,
    plotted (trace (run (fw_fresh tiny_mnist) script 0))
    = [ (axs, 0, hist, "loss"); (axs, 0, hist, "val_loss");
        (axs, 1, hist, "accuracy"); (axs, 1, hist, "val_accuracy") ].
Proof.
  split; [vm_compute; reflexivity|].
  destruct (@script_plots_history nat (fw_fresh tiny_mnist) 0)
    as (hist & axs & _ & _ & Hp & _); [vm_compute; reflexivity|].
  exists hist, axs. exact Hp.
Defined.

Local Close Scope string_scope.

(** ** The input shape *)

Lemma wf4_images {A} (t : Tensor4 A) (n h w c : nat) :
  wf4 t -> shape4 t = (n, h, w, c) -> Forall (has_shape3 h w c) (data4 t).
Proof.
  unfold wf4. intros H E. rewrite E in H. apply H.
Qed.

Lemma shape_tail_slice_but_last {A} (t : Tensor4 A) (k : nat) :
  shape_tail (slice_but_last t k) = shape_tail t.
Proof.
  destruct t as [[[[n h] w] c] xs]. reflexivity.
Qed.

Lemma shape_tail_slice_last {A} (t : Tensor4 A) (k : nat) :
  shape_tail (slice_last t k) = shape_tail t.
Proof.
  destruct t as [[[[n h] w] c] xs]. reflexivity.
Qed.

Lemma shape_tail_preprocess (x : Tensor3 uint8) (n h w : nat) :
  shape3 x = (n, h, w) -> shape_tail (preprocess x) = (2 + h + 2, 2 + w + 2, 3).
Proof.
  intros E. unfold shape_tail. now rewrite (shape_preprocess x E).
Qed.

(** The resizing layer is declared with the shape of the training array. *)
Lemma script_from_input_shape (d : loaded) W (fw : framework W) (w : W) :
  outcome (run fw (script_from d) w) = inr tt ->
  input_shapes (map snd (layers_added (trace (run fw (script_from d) w))))
  = [shape_tail (x_train (prepare d))].
Proof.
  intros H. by_ends_with ends_with_run_trace H.
  destruct d as [[xa ya] [xb yb]]. script_ends.
  reflexivity.
Qed.

Lemma tiny_mnist_wf : wf3 (fst (fst tiny_mnist)) /\ wf3 (fst (snd tiny_mnist)).
Proof.
  split; (split; [reflexivity|]); repeat constructor.
Qed.

(** An array of [n] images of 28 x 28 preprocesses to [n] images, image [i]
    being what the four stages make of the loaded image [i], each of them
    32 x 32 x 3. *)
Lemma preprocess_28 (x : Tensor3 uint8) (n : nat) :
  wf3 x -> shape3 x = (n, 28, 28) ->
  shape4 (preprocess x) = (n, 32, 32, 3) /\
  wf4 (preprocess x) /\
  length (data4 (preprocess x)) = n /\
  data4 (preprocess x) = map (preprocess_image 28) (data3 x) /\
  Forall (fun img => has_shape3 32 32 3 (preprocess_image 28 img)) (data3 x) /\
  Forall (has_shape3 32 32 3) (data4 (preprocess x)).
Proof.
  intros Hwf Hsh.
  pose proof (shape_preprocess _ Hsh) as E. change (2 + 28 + 2) with 32 in E.
  pose proof (wf4_preprocess x Hwf) as Hw.
  assert (Hall : Forall (has_shape3 32 32 3) (data4 (preprocess x)))
    by (eapply wf4_images; [exact Hw|exact E]).
  split; [exact E|]. split; [exact Hw|]. split; [|split; [|split]].
  - rewrite preprocess_length. unfold wf3 in Hwf. rewrite Hsh in Hwf. apply Hwf.
  - exact (preprocess_data x Hsh).
  - rewrite (preprocess_data x Hsh), Forall_map in Hall. exact Hall.
  - exact Hall.
Qed.

(** C2. When the loaded images are 28 x 28, every one of them, of the
    training and of the test array, is preprocessed to an image of
    32 x 32 x 3, as many images coming out as were loaded and in their order;
    this is the input shape the resizing layer is declared with, and the
    shape of the images handed to [model.fit], which are the preprocessed
    training images before the last 2000. *)
Theorem preprocessed_shape_is_model_input
    (d : loaded) (ntr nte : nat) W (fw : framework W) (w : W) :
  wf3 (fst (fst d)) -> shape3 (fst (fst d)) = (ntr, 28, 28) ->
  wf3 (fst (snd d)) -> shape3 (fst (snd d)) = (nte, 28, 28) ->
  outcome (run fw (script_from d) w) = inr tt ->
  let tr := trace (run fw (script_from d) w) in
  let x0 := fst (fst d) in
  let x0' := fst (snd d) in
  (shape4 (preprocess x0) = (ntr, 32, 32, 3) /\
   wf4 (preprocess x0) /\
   length (data4 (preprocess x0)) = ntr /\
   data4 (preprocess x0) = map (preprocess_image 28) (data3 x0) /\
   Forall (fun img => has_shape3 32 32 3 (preprocess_image 28 img)) (data3 x0) /\
   Forall (has_shape3 32 32 3) (data4 (preprocess x0))) /\
  (shape4 (preprocess x0') = (nte, 32, 32, 3) /\
   wf4 (preprocess x0') /\
   length (data4 (preprocess x0')) = nte /\
   data4 (preprocess x0') = map (preprocess_image 28) (data3 x0') /\
   Forall (fun img => has_shape3 32 32 3 (preprocess_image 28 img)) (data3 x0') /\
   Forall (has_shape3 32 32 3) (data4 (preprocess x0'))) /\
  input_shapes (map snd (layers_added tr)) = [(32, 32, 3)] /\
  exists m a,
    fit_calls tr = [(m, a)] /\
    shape_tail (fit_x a) = (32, 32, 3) /\
    shape4 (fit_x a) = (ntr - 2000, 32, 32, 3) /\
    wf4 (fit_x a) /\
    data4 (fit_x a)
    = firstn (ntr - 2000) (map (preprocess_image 28) (data3 x0)) /\
    Forall (has_shape3 32 32 3) (data4 (fit_x a)).
Proof.
  intros Hwf Hsh Hwf' Hsh' H tr x0 x0'. subst x0 x0'.
  destruct d as [[xa ya] [xb yb]]. cbn [fst snd] in *.
  destruct (@preprocess_28 xa ntr Hwf Hsh) as (E & Hw & Hl & Hd & Himg & Hall).
  split; [now repeat split|].
  split; [exact (@preprocess_28 xb nte Hwf' Hsh')|].
  set (d := (xa, ya, (xb, yb))) in *.
  change (x_train (prepare d)) with (slice_but_last (preprocess xa) 2000) in *.
  assert (St : shape4 (slice_but_last (preprocess xa) 2000)
               = (ntr - 2000, 32, 32, 3)).
  { unfold slice_but_last. now rewrite E. }
  assert (Ht : shape_tail (slice_but_last (preprocess xa) 2000) = (32, 32, 3)).
  { unfold shape_tail. now rewrite St. }
  assert (Wt : wf4 (slice_but_last (preprocess xa) 2000))
    by now apply wf4_slice_but_last.
  assert (Dt : data4 (slice_but_last (preprocess xa) 2000)
               = firstn (ntr - 2000) (map (preprocess_image 28) (data3 xa))).
  { rewrite <- Hd. unfold slice_but_last. now rewrite E. }
  split.
  - unfold tr. rewrite (script_from_input_shape d fw w H).
    change (x_train (prepare d)) with (slice_but_last (preprocess xa) 2000).
    now rewrite Ht.
  - destruct (script_from_fits_prepared d fw w H) as [m Hm].
    eexists. eexists. split; [exact Hm|]. cbn [fit_x].
    change (x_train (prepare d)) with (slice_but_last (preprocess xa) 2000).
    split; [exact Ht|]. split; [exact St|]. split; [exact Wt|].
    split; [exact Dt|].
    eapply wf4_images; [exact Wt|exact St].
Qed.

Lemma preprocessed_shape_is_model_input_witness :
  let tr := trace (run (fw_fresh tiny_mnist) (script_from tiny_mnist) 0) in
  (wf3 (fst (fst tiny_mnist)) /\ shape3 (fst (fst tiny_mnist)) = (2, 28, 28) /\
   wf3 (fst (snd tiny_mnist)) /\ shape3 (fst (snd tiny_mnist)) = (1, 28, 28) /\
   outcome (run (fw_fresh tiny_mnist) (script_from tiny_mnist) 0) = inr tt) /\
  shape4 (preprocess (fst (fst tiny_mnist))) = (2, 32, 32, 3) /\
  length (data4 (preprocess (fst (fst tiny_mnist)))) = 2 /\
  length (data4 (preprocess (fst (snd tiny_mnist)))) = 1 /\
  input_shapes (map snd (layers_added tr)) = [(32, 32, 3)].
Proof.
  assert (Hok : outcome (run (fw_fresh tiny_mnist) (script_from tiny_mnist) 0)
                = inr tt) by (vm_compute; reflexivity).
  destruct (@preprocessed_shape_is_model_input tiny_mnist 2 1 nat
              (fw_fresh tiny_mnist) 0
              (proj1 tiny_mnist_wf) eq_refl (proj2 tiny_mnist_wf) eq_refl Hok)
    as ((E & _ & Hl & _) & (_ & _ & Hl' & _) & Hin & _).
  split; [|split; [exact E|split; [exact Hl|split; [exact Hl'|exact Hin]]]].
  split; [apply tiny_mnist_wf|]. split; [reflexivity|].
  split; [apply tiny_mnist_wf|]. split; [reflexivity|exact Hok].
Defined.

(** ** The validation split *)

Section Split.
Context {A : Type}.

Lemma split_concat (l : list A) (k : nat) :
  slice1_but_last l k ++ slice1_last l k = l.
Proof. apply firstn_skipn. Qed.

Lemma slice1_last_length (l : list A) (k : nat) :
  k <= length l -> length (slice1_last l k) = k.
Proof. intros H. unfold slice1_last. rewrite length_skipn. lia. Qed.

Lemma slice1_but_last_length (l : list A) (k : nat) :
  length (slice1_but_last l k) = length l - k.
Proof. unfold slice1_but_last. rewrite length_firstn. lia. Qed.

Lemma slice1_but_last_nth (l : list A) (k i : nat) :
  i < length l - k -> nth_error (slice1_but_last l k) i = nth_error l i.
Proof.
  intros H. unfold slice1_but_last. rewrite nth_error_firstn.
  destruct (Nat.ltb_spec i (length l - k)); [reflexivity|lia].
Qed.

Lemma slice1_last_nth (l : list A) (k i : nat) :
  nth_error (slice1_last l k) i = nth_error l (length l - k + i).
Proof. apply nth_error_skipn. Qed.

(** On an array whose static length is the length of its elements, the
    slices of the first axis are the slices of the list of elements. *)
Lemma slice_last_data (t : Tensor4 A) (k : nat) :
  fst (fst (fst (shape4 t))) = length (data4 t) ->
  data4 (slice_last t k) = slice1_last (data4 t) k.
Proof.
  destruct t as [[[[n h] w] c] xs]. simpl. now intros ->.
Qed.

Lemma slice_but_last_data (t : Tensor4 A) (k : nat) :
  fst (fst (fst (shape4 t))) = length (data4 t) ->
  data4 (slice_but_last t k) = slice1_but_last (data4 t) k.
Proof.
  destruct t as [[[[n h] w] c] xs]. simpl. now intros ->.
Qed.
End Split.

Lemma wf4_length {A} (t : Tensor4 A) :
  wf4 t -> fst (fst (fst (shape4 t))) = length (data4 t).
Proof.
  unfold wf4. destruct (shape4 t) as [[[n h] w] c]. simpl. now intros [-> _].
Qed.

(** C3. With at least 2000 training examples, the validation arrays are the
    last 2000 preprocessed examples and labels, the training arrays are the
    ones before them, and training followed by validation is the
    preprocessed training set in its order: example [i] of the training part
    is example [i] of the whole and example [j] of the validation part is
    example [n - 2000 + j], so no example is in both. *)
Theorem validation_split_partitions (d : loaded) (n h w : nat) :
  wf3 (fst (fst d)) -> shape3 (fst (fst d)) = (n, h, w) ->
  length (snd (fst d)) = n -> 2000 <= n ->
  let whole := preprocess (fst (fst d)) in
  let labels := snd (fst d) in
  let ds := prepare d in
  data4 (x_train ds) ++ data4 (x_val ds) = data4 whole /\
  y_train ds ++ y_val ds = labels /\
  length (data4 (x_val ds)) = 2000 /\ length (y_val ds) = 2000 /\
  length (data4 (x_train ds)) = n - 2000 /\ length (y_train ds) = n - 2000 /\
  fst (fst (fst (shape4 (x_val ds)))) = 2000 /\
  fst (fst (fst (shape4 (x_train ds)))) = n - 2000 /\
  (forall i, i < n - 2000 ->
     nth_error (data4 (x_train ds)) i = nth_error (data4 whole) i /\
     nth_error (y_train ds) i = nth_error labels i) /\
  (forall j, j < 2000 ->
     nth_error (data4 (x_val ds)) j = nth_error (data4 whole) (n - 2000 + j) /\
     nth_error (y_val ds) j = nth_error labels (n - 2000 + j)).
Proof.
  destruct d as [[xa ya] [xb yb]]. simpl fst; simpl snd.
  intros Hwf Hsh Hy Hn whole labels ds.
  assert (Hw : wf4 whole) by now apply wf4_preprocess.
  assert (Hl : length (data4 whole) = n).
  { unfold whole. rewrite preprocess_length.
    unfold wf3 in Hwf. rewrite Hsh in Hwf. apply Hwf. }
  assert (Hs : fst (fst (fst (shape4 whole))) = length (data4 whole))
    by now apply wf4_length.
  assert (Ev : data4 (x_val ds) = slice1_last (data4 whole) 2000)
    by now apply slice_last_data.
  assert (Et : data4 (x_train ds) = slice1_but_last (data4 whole) 2000)
    by now apply slice_but_last_data.
  assert (Sv : fst (fst (fst (shape4 (x_val ds)))) = 2000).
  { rewrite Hl in Hs. unfold ds, prepare, x_val, slice_last. fold whole.
    destruct (shape4 whole) as [[[n0 h0] w0] c0]. unfold val_size.
    simpl in *. lia. }
  assert (St : fst (fst (fst (shape4 (x_train ds)))) = n - 2000).
  { rewrite Hl in Hs. unfold ds, prepare, x_train, slice_but_last. fold whole.
    destruct (shape4 whole) as [[[n0 h0] w0] c0]. unfold val_size.
    simpl in *. lia. }
  rewrite Ev, Et. change (y_train ds) with (slice1_but_last labels 2000).
  change (y_val ds) with (slice1_last labels 2000).
  split; [apply split_concat|]. split; [apply split_concat|].
  split; [apply slice1_last_length; lia|].
  split; [apply slice1_last_length; unfold labels; simpl; lia|].
  split; [rewrite slice1_but_last_length; lia|].
  split; [rewrite slice1_but_last_length; unfold labels; simpl; lia|].
  split; [exact Sv|]. split; [exact St|]. split.
  - intros i Hi. split; apply slice1_but_last_nth; [|unfold labels; simpl]; lia.
  - intros j Hj. rewrite !slice1_last_nth. rewrite Hl.
    unfold labels. simpl. now rewrite Hy.
Qed.

Lemma image28_shape (p q : uint8) : has_shape2 28 28 (image28 p q).
Proof.
  split; [reflexivity|]. unfold image28. simpl. repeat constructor.
Qed.

Lemma small_mnist_wf : wf3 (fst (fst small_mnist)).
Proof.
  unfold wf3, small_mnist. cbn [fst snd shape3 data3]. split.
  - vm_compute. reflexivity.
  - constructor; [apply image28_shape|].
    apply Forall_repeat, image28_shape.
Qed.

Lemma small_mnist_labels : length (snd (fst small_mnist)) = 2001.
Proof.
  vm_compute. reflexivity.
Qed.

Lemma validation_split_partitions_witness :
  (wf3 (fst (fst small_mnist)) /\
   shape3 (fst (fst small_mnist)) = (2001, 28, 28) /\
   length (snd (fst small_mnist)) = 2001 /\ 2000 <= 2001) /\
  data4 (x_train (prepare small_mnist)) ++ data4 (x_val (prepare small_mnist))
  = data4 (preprocess (fst (fst small_mnist))) /\
  length (data4 (x_val (prepare small_mnist))) = 2000 /\
  length (data4 (x_train (prepare small_mnist))) = 1.
Proof.
  assert (Hn : 2000 <= 2001) by (apply le_S, le_n).
  destruct (@validation_split_partitions small_mnist 2001 28 28
              small_mnist_wf eq_refl small_mnist_labels Hn)
    as (Hcat & _ & Hv & _ & Ht & _).
  split; [|split; [exact Hcat|split; [exact Hv|exact Ht]]].
  repeat split; try exact Hn; try exact small_mnist_labels;
    apply small_mnist_wf.
Defined.

(** ** Images and their labels *)

Section Labels.
Context {X X' L : Type} (f : X -> X').

Lemma keeps_labels_map (xs0 : list X) (ys : list L) :
  length xs0 = length ys -> keeps_labels f 0 xs0 ys (map f xs0) ys.
Proof.
  intros H. split; [now rewrite length_map|].
  intros i Hi. rewrite length_map in Hi. simpl.
  now rewrite nth_error_map.
Qed.

Lemma keeps_labels_but_last (xs0 : list X) (ys0 : list L)
    (xs : list X') (ys : list L) (k : nat) :
  keeps_labels f 0 xs0 ys0 xs ys ->
  keeps_labels f 0 xs0 ys0 (slice1_but_last xs k) (slice1_but_last ys k).
Proof.
  intros [Hlen H]. split.
  - rewrite !slice1_but_last_length. now rewrite Hlen.
  - intros i Hi. rewrite slice1_but_last_length in Hi.
    rewrite !slice1_but_last_nth by lia. apply H. lia.
Qed.

Lemma keeps_labels_last (xs0 : list X) (ys0 : list L)
    (xs : list X') (ys : list L) (k : nat) :
  keeps_labels f 0 xs0 ys0 xs ys ->
  keeps_labels f (length xs - k) xs0 ys0 (slice1_last xs k) (slice1_last ys k).
Proof.
  intros [Hlen H]. split.
  - unfold slice1_last. rewrite !length_skipn. now rewrite Hlen.
  - intros i Hi. unfold slice1_last in Hi. rewrite length_skipn in Hi.
    rewrite !slice1_last_nth. rewrite <- Hlen. apply (H (length xs - k + i)).
    lia.
Qed.
End Labels.

(** C7. Images and labels stay paired.  After padding, after scaling, after
    the channel axis is added and after it is replicated, the training and
    the test array have as many images as there are labels, and image [i] is
    the loaded image [i] put through the stages so far, next to the loaded
    label [i]; after the split the same holds of the training part, and of
    the validation part from loaded index [n - 2000] on. *)
Theorem labels_stay_paired (d : loaded) (n h w n' h' w' : nat) :
  wf3 (fst (fst d)) -> shape3 (fst (fst d)) = (n, h, w) ->
  length (snd (fst d)) = n ->
  wf3 (fst (snd d)) -> shape3 (fst (snd d)) = (n', h', w') ->
  length (snd (snd d)) = n' ->
  let x0 := fst (fst d) in let y0 := snd (fst d) in
  let x0' := fst (snd d) in let y0' := snd (snd d) in
  let ds := prepare d in
  (keeps_labels (padded_image w) 0 (data3 x0) y0 (data3 (padded x0)) y0 /\
   keeps_labels (scaled_image w) 0 (data3 x0) y0 (data3 (scaled x0)) y0 /\
   keeps_labels (expanded_image w) 0 (data3 x0) y0 (data4 (expanded x0)) y0 /\
   keeps_labels (preprocess_image w) 0 (data3 x0) y0 (data4 (preprocess x0)) y0) /\
  (keeps_labels (padded_image w') 0 (data3 x0') y0' (data3 (padded x0')) y0' /\
   keeps_labels (scaled_image w') 0 (data3 x0') y0' (data3 (scaled x0')) y0' /\
   keeps_labels (expanded_image w') 0 (data3 x0') y0' (data4 (expanded x0')) y0' /\
   keeps_labels (preprocess_image w') 0 (data3 x0') y0'
     (data4 (preprocess x0')) y0') /\
  keeps_labels (preprocess_image w) 0 (data3 x0) y0
    (data4 (x_train ds)) (y_train ds) /\
  keeps_labels (preprocess_image w) (n - 2000) (data3 x0) y0
    (data4 (x_val ds)) (y_val ds) /\
  keeps_labels (preprocess_image w') 0 (data3 x0') y0'
    (data4 (x_test ds)) (y_test ds).
Proof.
  destruct d as [[xa ya] [xb yb]]. simpl fst; simpl snd.
  intros Hwf Hsh Hy Hwf' Hsh' Hy' x0 y0 x0' y0' ds.
  assert (Hl : length (data3 xa) = length ya).
  { unfold wf3 in Hwf. rewrite Hsh in Hwf. destruct Hwf as [-> _]. now rewrite Hy. }
  assert (Hl' : length (data3 xb) = length yb).
  { unfold wf3 in Hwf'. rewrite Hsh' in Hwf'. destruct Hwf' as [-> _].
    now rewrite Hy'. }
  assert (Hp : keeps_labels (preprocess_image w) 0 (data3 xa) ya
                 (data4 (preprocess xa)) ya).
  { rewrite (preprocess_data xa Hsh). now apply keeps_labels_map. }
  assert (Hp' : keeps_labels (preprocess_image w') 0 (data3 xb) yb
                  (data4 (preprocess xb)) yb).
  { rewrite (preprocess_data xb Hsh'). now apply keeps_labels_map. }
  assert (Hs : fst (fst (fst (shape4 (preprocess xa))))
               = length (data4 (preprocess xa)))
    by now apply wf4_length, wf4_preprocess.
  unfold x0, y0, x0', y0'. split; [|split; [|split; [|split]]].
  - rewrite (padded_data xa Hsh), (scaled_data xa Hsh), (expanded_data xa Hsh).
    split; [|split; [|split]];
      try (apply keeps_labels_map; exact Hl); exact Hp.
  - rewrite (padded_data xb Hsh'), (scaled_data xb Hsh'), (expanded_data xb Hsh').
    split; [|split; [|split]];
      try (apply keeps_labels_map; exact Hl'); exact Hp'.
  - change (data4 (x_train ds)) with (data4 (slice_but_last (preprocess xa) 2000)).
    rewrite (@slice_but_last_data _ _ 2000 Hs).
    now apply keeps_labels_but_last.
  - change (data4 (x_val ds)) with (data4 (slice_last (preprocess xa) 2000)).
    rewrite (@slice_last_data _ _ 2000 Hs).
    replace (n - 2000) with (length (data4 (preprocess xa)) - 2000).
    + now apply keeps_labels_last.
    + rewrite preprocess_length, Hl, Hy. reflexivity.
  - exact Hp'.
Qed.

Lemma labels_stay_paired_witness :
  (wf3 (fst (fst small_mnist)) /\
   shape3 (fst (fst small_mnist)) = (2001, 28, 28) /\
   length (snd (fst small_mnist)) = 2001 /\
   wf3 (fst (snd small_mnist)) /\
   shape3 (fst (snd small_mnist)) = (1, 28, 28) /\
   length (snd (snd small_mnist)) = 1) /\
  keeps_labels (preprocess_image 28) 1
    (data3 (fst (fst small_mnist))) (snd (fst small_mnist))
    (data4 (x_val (prepare small_mnist))) (y_val (prepare small_mnist)).
Proof.
  assert (Hwf' : wf3 (fst (snd small_mnist))) by apply tiny_mnist_wf.
  destruct (@labels_stay_paired small_mnist 2001 28 28 1 28 28
              small_mnist_wf eq_refl small_mnist_labels Hwf' eq_refl eq_refl)
    as (_ & _ & _ & Hv & _).
  split; [|exact Hv].
  repeat split; try exact small_mnist_labels; try apply small_mnist_wf;
    apply Hwf'.
Defined.

(** ** Channels *)

Lemma repeat_expand_image {A} (img : list (list A)) :
  repeat_image 3 (expand_image img) = map (map (fun v => [v; v; v])) img.
Proof.
  unfold repeat_image, expand_image. rewrite map_map.
  apply map_ext. intros row. rewrite map_map. reflexivity.
Qed.

Lemma preprocess_scaled (x : Tensor3 uint8) :
  data4 (preprocess x) = map (map (map (fun v => [v; v; v]))) (data3 (scaled x)).
Proof.
  unfold preprocess, expanded, tf_repeat_3, tf_expand_dims_3, channels.
  destruct (shape3 (scaled x)) as [[n h] w]. cbn [shape4 data4].
  rewrite map_map. apply map_ext. intros img. apply repeat_expand_image.
Qed.

Lemma get4_preprocess (x : Tensor3 uint8) (k i j c : nat) :
  get4 (preprocess x) k i j c
  = match get3 (scaled x) k i j with
    | Some v => nth_error [v; v; v] c
    | None => None
    end.
Proof.
  unfold get4, get3. rewrite preprocess_scaled, nth_error_map.
  destruct (nth_error (data3 (scaled x)) k) as [img|]; [simpl|reflexivity].
  rewrite nth_error_map.
  destruct (nth_error img i) as [row|]; [simpl|reflexivity].
  rewrite nth_error_map.
  now destruct (nth_error row j).
Qed.

(** C9. The three channels of a preprocessed array are three copies of the
    padded and scaled grayscale array: every pixel is [[v; v; v]] for the
    value [v] at its place there, so each channel, read alone, is that array. *)
Theorem channels_are_copies (x : Tensor3 uint8) :
  data4 (preprocess x) = map (map (map (fun v => [v; v; v]))) (data3 (scaled x)) /\
  forall k i j,
    get4 (preprocess x) k i j 0 = get3 (scaled x) k i j /\
    get4 (preprocess x) k i j 1 = get3 (scaled x) k i j /\
    get4 (preprocess x) k i j 2 = get3 (scaled x) k i j /\
    get4 (preprocess x) k i j 3 = None.
Proof.
  split; [apply preprocess_scaled|].
  intros k i j. rewrite !get4_preprocess.
  now destruct (get3 (scaled x) k i j).
Qed.

(** ** Values *)

Unset Implicit Arguments.

Lemma nth_error_pad_axis {A} (z : A) (b a : nat) (l : list A) (i : nat) :
  nth_error (pad_axis z (b, a) l) i
  = if i <? b then Some z
    else if i <? b + length l then nth_error l (i - b)
    else if i <? b + length l + a then Some z
    else None.
Proof.
  unfold pad_axis. cbn [fst snd].
  destruct (Nat.ltb_spec i b) as [Hb|Hb].
  - rewrite nth_error_app1 by (rewrite repeat_length; lia).
    now apply nth_error_repeat.
  - rewrite nth_error_app2 by (rewrite repeat_length; lia).
    rewrite repeat_length.
    destruct (Nat.ltb_spec i (b + length l)) as [Hl|Hl].
    + now rewrite nth_error_app1 by lia.
    + rewrite nth_error_app2 by lia.
      destruct (Nat.ltb_spec i (b + length l + a)) as [Ha|Ha].
      * apply nth_error_repeat. lia.
      * apply nth_error_None. rewrite repeat_length. lia.
Qed.

Lemma wf3_image {A} (x : Tensor3 A) (n h w k : nat) :
  wf3 x -> shape3 x = (n, h, w) -> k < n ->
  exists img, nth_error (data3 x) k = Some img /\ has_shape2 h w img.
Proof.
  unfold wf3. intros Hwf E Hk. rewrite E in Hwf. destruct Hwf as [Hn Hall].
  destruct (nth_error (data3 x) k) as [img|] eqn:Ek.
  - exists img. split; [reflexivity|].
    rewrite Forall_forall in Hall. eapply Hall, nth_error_In, Ek.
  - apply nth_error_None in Ek. lia.
Qed.

Lemma has_shape2_row {A} (h w i : nat) (img : list (list A)) :
  has_shape2 h w img -> i < h ->
  exists row, nth_error img i = Some row /\ length row = w.
Proof.
  intros [Hh Hw] Hi.
  destruct (nth_error img i) as [row|] eqn:Ei.
  - exists row. split; [reflexivity|].
    rewrite Forall_forall in Hw. eapply Hw, nth_error_In, Ei.
  - apply nth_error_None in Ei. lia.
Qed.

Lemma get3_in_range {A} (x : Tensor3 A) (n h w k i j : nat) :
  wf3 x -> shape3 x = (n, h, w) -> k < n -> i < h -> j < w ->
  get3 x k i j <> None.
Proof.
  intros Hwf E Hk Hi Hj. unfold get3.
  destruct (wf3_image x n h w k Hwf E Hk) as (img & -> & Himg).
  destruct (has_shape2_row h w i img Himg Hi) as (row & -> & Hrow).
  apply nth_error_Some. lia.
Qed.

(** The padded array: zero on the border, the loaded pixel inside. *)
Lemma get3_padded (x : Tensor3 uint8) (n h w k i j : nat) :
  wf3 x -> shape3 x = (n, h, w) -> k < n -> i < 2 + h + 2 -> j < 2 + w + 2 ->
  get3 (padded x) k i j
  = if in_border h w i j then Some x00 else get3 x k (i - 2) (j - 2).
Proof.
  intros Hwf E Hk Hi Hj. unfold get3 at 1.
  rewrite (padded_data x E), nth_error_map.
  destruct (wf3_image x n h w k Hwf E Hk) as (img & Ek & Himg).
  unfold get3. rewrite Ek. cbn [option_map].
  unfold padded_image, paddings, pad_image. cbn [fst snd].
  rewrite nth_error_pad_axis, length_map.
  destruct Himg as [Hh Hw]. rewrite Hh. unfold in_border.
  destruct (Nat.ltb_spec i 2) as [Hi2|Hi2]; cbn [orb].
  { rewrite nth_error_repeat by lia. reflexivity. }
  destruct (Nat.leb_spec (2 + h) i) as [Hih|Hih]; cbn [orb].
  { destruct (Nat.ltb_spec i (2 + h)); [lia|].
    destruct (Nat.ltb_spec i (2 + h + 2)); [|lia].
    rewrite nth_error_repeat by lia. reflexivity. }
  destruct (Nat.ltb_spec i (2 + h)); [|lia].
  rewrite nth_error_map.
  destruct (has_shape2_row h w (i - 2) img (conj Hh Hw)) as (row & -> & Hrow);
    [lia|].
  cbn [option_map]. rewrite nth_error_pad_axis, Hrow.
  destruct (Nat.ltb_spec j 2) as [Hj2|Hj2]; cbn [orb]; [reflexivity|].
  destruct (Nat.leb_spec (2 + w) j) as [Hjw|Hjw]; cbn [orb].
  { destruct (Nat.ltb_spec j (2 + w)); [lia|].
    destruct (Nat.ltb_spec j (2 + w + 2)); [reflexivity|lia]. }
  destruct (Nat.ltb_spec j (2 + w)); [reflexivity|lia].
Qed.

Lemma get3_scaled (x : Tensor3 uint8) (k i j : nat) :
  get3 (scaled x) k i j = option_map (div_uint8 scale) (get3 (padded x) k i j).
Proof.
  unfold get3, scaled, truediv, scale_image. cbn [data3].
  rewrite nth_error_map.
  destruct (nth_error (data3 (padded x)) k) as [img|]; [simpl|reflexivity].
  rewrite nth_error_map.
  destruct (nth_error img i) as [row|]; [simpl|reflexivity].
  apply nth_error_map.
Qed.

(** Every quotient by 255 lies between 0 and 1, and is within half a unit
    in the last place, 2^-25, of the rational quotient. *)
Lemma div_uint8_range (p : uint8) :
  f32_leb f32_zero (div_uint8 scale p) = true /\
  f32_leb (div_uint8 scale p) f32_one = true.
Proof.
  destruct p; vm_compute; split; reflexivity.
Qed.

Lemma div_uint8_rounds (p : uint8) :
  Qle_bool (Qabs (f32_to_Q (div_uint8 scale p)
                  - (Z.of_N (Byte.to_N p) # 255))%Q)
           (1 # 33554432) = true.
Proof.
  destruct p; vm_compute; reflexivity.
Qed.

Lemma preprocess_values (Q : float32 -> Prop) (x : Tensor3 uint8) :
  (forall p, Q (div_uint8 scale p)) -> Forall Q (values4 (preprocess x)).
Proof.
  intros HQ. unfold values4. rewrite preprocess_scaled.
  unfold scaled, truediv, scale_image. cbn [data3].
  apply Forall_concat, Forall_concat, Forall_concat.
  rewrite !Forall_map. apply Forall_forall. intros img _.
  rewrite !Forall_map. apply Forall_forall. intros row _.
  rewrite !Forall_map. apply Forall_forall. intros p _.
  repeat constructor; apply HQ.
Qed.

(** C10. In a preprocessed array of [h] x [w] images, the entries of the
    2-pixel border are zero and every entry inside is the loaded pixel
    divided by 255, in all three channels; every entry of the array lies
    between 0 and 1; and the quotient is the [float32] nearest to the
    rational quotient, within 2^-25 of it. *)
Theorem preprocessed_values_in_unit_interval (x : Tensor3 uint8) (n h w : nat) :
  wf3 x -> shape3 x = (n, h, w) ->
  (forall k i j c, k < n -> i < 2 + h + 2 -> j < 2 + w + 2 -> c < 3 ->
     get4 (preprocess x) k i j c
     = (if in_border h w i j then Some f32_zero
        else option_map (div_uint8 scale) (get3 x k (i - 2) (j - 2))) /\
     (in_border h w i j = false -> get3 x k (i - 2) (j - 2) <> None)) /\
  Forall (fun v => f32_leb f32_zero v = true /\ f32_leb v f32_one = true)
    (values4 (preprocess x)) /\
  (forall p : uint8,
     (Qabs (f32_to_Q (div_uint8 scale p) - (Z.of_N (Byte.to_N p) # 255))
      <= 1 # 33554432)%Q).
Proof.
  intros Hwf E. split; [|split].
  - intros k i j c Hk Hi Hj Hc. split.
    + rewrite get4_preprocess, get3_scaled.
      rewrite (get3_padded x n h w k i j Hwf E Hk Hi Hj).
      destruct (in_border h w i j).
      * cbn [option_map].
        destruct c as [|[|[|c]]]; [reflexivity|reflexivity|reflexivity|lia].
      * destruct (get3 x k (i - 2) (j - 2)) as [p|]; [|reflexivity].
        cbn [option_map].
        destruct c as [|[|[|c]]]; [reflexivity|reflexivity|reflexivity|lia].
    + unfold in_border. intros Hb.
      apply orb_false_iff in Hb as [Hb Hj2].
      apply orb_false_iff in Hb as [Hb Hj1].
      apply orb_false_iff in Hb as [Hi1 Hi2].
      apply Nat.ltb_ge in Hi1, Hj1. apply Nat.leb_gt in Hi2, Hj2.
      apply (get3_in_range x n h w); auto; lia.
  - apply preprocess_values. apply div_uint8_range.
  - intros p. apply Qle_bool_iff, div_uint8_rounds.
Qed.

Lemma preprocessed_values_in_unit_interval_witness :
  (wf3 (fst (fst tiny_mnist)) /\ shape3 (fst (fst tiny_mnist)) = (2, 28, 28)) /\
  get4 (preprocess (fst (fst tiny_mnist))) 0 2 2 1 = Some f32_one /\
  get4 (preprocess (fst (fst tiny_mnist))) 1 2 2 1
  = Some (S754_finite false 8421505 (-24)) /\
  get4 (preprocess (fst (fst tiny_mnist))) 0 1 2 1 = Some f32_zero /\
  get4 (preprocess (fst (fst tiny_mnist))) 0 31 31 2 = Some f32_zero.
Proof.
  destruct (preprocessed_values_in_unit_interval (fst (fst tiny_mnist)) 2 28 28
              (proj1 tiny_mnist_wf) eq_refl) as (Hget & _ & _).
  split; [split; [apply tiny_mnist_wf|reflexivity]|].
  split; [|split; [|split]].
  - refine (proj1 (Hget 0 2 2 1 _ _ _ _)); lia.
  - refine (proj1 (Hget 1 2 2 1 _ _ _ _)); lia.
  - refine (proj1 (Hget 0 1 2 1 _ _ _ _)); lia.
  - refine (proj1 (Hget 0 31 31 2 _ _ _ _)); lia.
Defined.

(** ** The script on a small data set *)

(** On two training images and one test image, with a framework in which
    every call returns, the script makes 54 calls; it ends with the legend
    of the second subplot, and no call evaluates the model. *)
Example script_on_tiny_mnist :
  let tr := trace (run (fw_fresh tiny_mnist) script 0) in
  length tr = 54 /\
  existsb (fun ev => is_evaluate (fst ev)) tr = false /\
  map fst (skipn 53 tr)
  = [axes_legend (axes_at 41) 1 ["Train"%string; "Val"%string]].
Proof.
  vm_compute. repeat split.
Qed.

(** * Further properties *)

(** ** The split on any number of examples *)

(** X1. Whatever the number [n] of training examples, the split cuts the
    preprocessed training set and its labels in two at the same place:
    training followed by validation is the whole in its order, the
    validation part has [min n 2000] examples and the training part
    [n - 2000]. *)
Theorem split_any_size (d : loaded) (n h w : nat) :
  wf3 (fst (fst d)) -> shape3 (fst (fst d)) = (n, h, w) ->
  length (snd (fst d)) = n ->
  let ds := prepare d in
  data4 (x_train ds) ++ data4 (x_val ds) = data4 (preprocess (fst (fst d))) /\
  y_train ds ++ y_val ds = snd (fst d) /\
  length (data4 (x_val ds)) = Nat.min n 2000 /\
  length (y_val ds) = Nat.min n 2000 /\
  length (data4 (x_train ds)) = n - 2000 /\
  length (y_train ds) = n - 2000 /\
  shape4 (x_val ds) = (Nat.min n 2000, 2 + h + 2, 2 + w + 2, 3) /\
  shape4 (x_train ds) = (n - 2000, 2 + h + 2, 2 + w + 2, 3).
Proof.
  destruct d as [[xa ya] [xb yb]]. simpl fst; simpl snd.
  intros Hwf Hsh Hy ds.
  pose proof (shape_preprocess xa Hsh) as E.
  assert (Hl : length (data4 (preprocess xa)) = n).
  { rewrite preprocess_length. unfold wf3 in Hwf. rewrite Hsh in Hwf. apply Hwf. }
  assert (Hs : fst (fst (fst (shape4 (preprocess xa))))
               = length (data4 (preprocess xa))) by now rewrite E, Hl.
  assert (Ev : data4 (x_val ds) = slice1_last (data4 (preprocess xa)) 2000)
    by now apply slice_last_data.
  assert (Et : data4 (x_train ds) = slice1_but_last (data4 (preprocess xa)) 2000)
    by now apply slice_but_last_data.
  rewrite Ev, Et.
  change (y_train ds) with (slice1_but_last ya 2000).
  change (y_val ds) with (slice1_last ya 2000).
  split; [apply split_concat|]. split; [apply split_concat|].
  unfold slice1_last, slice1_but_last.
  rewrite !length_skipn, !length_firstn, Hl, Hy.
  repeat split; try lia.
  - unfold ds, prepare, x_val, slice_last, val_size. rewrite E.
    cbn [shape4]. do 3 f_equal. lia.
  - unfold ds, prepare, x_train, slice_but_last, val_size. rewrite E.
    reflexivity.
Qed.

Lemma split_any_size_witness :
  (wf3 (fst (fst tiny_mnist)) /\ shape3 (fst (fst tiny_mnist)) = (2, 28, 28) /\
   length (snd (fst tiny_mnist)) = 2) /\
  length (data4 (x_val (prepare tiny_mnist))) = Nat.min 2 2000 /\
  shape4 (x_train (prepare tiny_mnist)) = (2 - 2000, 2 + 28 + 2, 2 + 28 + 2, 3).
Proof.
  destruct (@split_any_size tiny_mnist 2 28 28 (proj1 tiny_mnist_wf)
              eq_refl eq_refl) as (_ & _ & Hv & _ & _ & _ & _ & Ht).
  split; [|split; [exact Hv|exact Ht]].
  repeat split. apply tiny_mnist_wf.
Defined.

Lemma fit_calls_satisfy (Q : fit_args -> Prop) (tr : list event) :
  Forall (fun ev => match fst ev with model_fit _ a => Q a | _ => True end) tr ->
  Forall (fun ma => Q (snd ma)) (fit_calls tr).
Proof.
  induction 1 as [|[c r] tr Hc _ IH]; [constructor|].
  unfold fit_calls. cbn [flat_map fst].
  destruct c; try exact IH. constructor; [exact Hc|exact IH].
Qed.

(** In every run, to its end or not, [model.fit] is called on the arrays
    [prepare] computes. *)
Lemma script_from_fit_args (d : loaded) W (fw : framework W) (w : W) :
  Forall (fun ma => snd ma
                    = {| fit_x := x_train (prepare d); fit_y := y_train (prepare d);
                         batch_size := 64; epochs := 40;
                         validation_data := Some (x_val (prepare d), y_val (prepare d));
                         fit_callbacks := [] |})
    (fit_calls (trace (run fw (script_from d) w))).
Proof.
  apply (fit_calls_satisfy
           (fun a => a = {| fit_x := x_train (prepare d);
                            fit_y := y_train (prepare d);
                            batch_size := 64; epochs := 40;
                            validation_data :=
                              Some (x_val (prepare d), y_val (prepare d));
                            fit_callbacks := [] |})).
  apply (run_calls_satisfy
           (P := fun c => match c with
                          | model_fit _ a =>
                              a = {| fit_x := x_train (prepare d);
                                     fit_y := y_train (prepare d);
                                     batch_size := 64; epochs := 40;
                                     validation_data :=
                                       Some (x_val (prepare d), y_val (prepare d));
                                     fit_callbacks := [] |}
                          | _ => True
                          end)).
  destruct d as [[xa ya] [xb yb]]. unfold script_from, perform, tf.
  cbn [bind]. script_calls.
Qed.

(** X2. With at most 2000 training examples nothing is left to train on: the
    training arrays are empty and the validation arrays are the whole
    preprocessed training set and all its labels.  These are the arrays
    [model.fit] is called on in every run that gets to line 106, whether the
    call then returns or raises; a run that ends normally makes the call
    once. *)
Theorem split_small_training_set
    (d : loaded) (n h w : nat) W (fw : framework W) (w0 : W) :
  wf3 (fst (fst d)) -> shape3 (fst (fst d)) = (n, h, w) ->
  length (snd (fst d)) = n -> n <= 2000 ->
  let ds := prepare d in
  let tr := trace (run fw (script_from d) w0) in
  data4 (x_train ds) = [] /\ y_train ds = [] /\
  data4 (x_val ds) = data4 (preprocess (fst (fst d))) /\
  y_val ds = snd (fst d) /\
  Forall (fun ma => data4 (fit_x (snd ma)) = [] /\ fit_y (snd ma) = [] /\
                    validation_data (snd ma) = Some (x_val ds, y_val ds))
    (fit_calls tr) /\
  (forall m a r, In (model_fit m a, r) tr ->
     data4 (fit_x a) = [] /\ fit_y a = [] /\
     validation_data a = Some (x_val ds, y_val ds)) /\
  (outcome (run fw (script_from d) w0) = inr tt ->
   exists m a, fit_calls tr = [(m, a)]).
Proof.
  destruct d as [[xa ya] [xb yb]]. simpl fst; simpl snd.
  intros Hwf Hsh Hy Hn ds tr.
  pose proof (shape_preprocess xa Hsh) as E.
  assert (Hl : length (data4 (preprocess xa)) = n).
  { rewrite preprocess_length. unfold wf3 in Hwf. rewrite Hsh in Hwf. apply Hwf. }
  assert (Hs : fst (fst (fst (shape4 (preprocess xa))))
               = length (data4 (preprocess xa))) by now rewrite E, Hl.
  assert (Ev : data4 (x_val ds) = slice1_last (data4 (preprocess xa)) 2000)
    by now apply slice_last_data.
  assert (Et : data4 (x_train ds) = slice1_but_last (data4 (preprocess xa)) 2000)
    by now apply slice_but_last_data.
  assert (Z1 : length (data4 (preprocess xa)) - 2000 = 0) by lia.
  assert (Z2 : length ya - 2000 = 0) by lia.
  assert (T1 : data4 (x_train ds) = []).
  { rewrite Et. unfold slice1_but_last. now rewrite Z1. }
  assert (T2 : y_train ds = []).
  { change (y_train ds) with (slice1_but_last ya 2000).
    unfold slice1_but_last. now rewrite Z2. }
  assert (HF : Forall (fun ma => data4 (fit_x (snd ma)) = [] /\
                                 fit_y (snd ma) = [] /\
                                 validation_data (snd ma)
                                 = Some (x_val ds, y_val ds)) (fit_calls tr)).
  { eapply Forall_impl; [|exact (script_from_fit_args (xa, ya, (xb, yb)) W fw w0)].
    intros [m a] Ha. cbn [snd] in *. rewrite Ha. cbn [fit_x fit_y validation_data].
    split; [exact T1|]. split; [exact T2|reflexivity]. }
  split; [exact T1|]. split; [exact T2|]. split; [|split; [|split; [|split]]].
  - rewrite Ev. unfold slice1_last. now rewrite Z1.
  - change (y_val ds) with (slice1_last ya 2000).
    unfold slice1_last. now rewrite Z2.
  - exact HF.
  - intros m a r Hin. rewrite Forall_forall in HF.
    apply (HF (m, a)). unfold fit_calls. apply in_flat_map.
    exists (model_fit m a, r). split; [exact Hin|]. now left.
  - intros H.
    destruct (script_from_fits_prepared (xa, ya, (xb, yb)) fw w0 H) as [m Hm].
    eexists. eexists. exact Hm.
Qed.

Lemma split_small_training_set_witness :
  let tr := trace (run (fw_fit_raises tiny_mnist) (script_from tiny_mnist) 0) in
  (wf3 (fst (fst tiny_mnist)) /\ shape3 (fst (fst tiny_mnist)) = (2, 28, 28) /\
   length (snd (fst tiny_mnist)) = 2 /\ 2 <= 2000) /\
  outcome (run (fw_fit_raises tiny_mnist) (script_from tiny_mnist) 0)
  = inl "ResourceExhaustedError"%string /\
  data4 (x_train (prepare tiny_mnist)) = [] /\
  y_val (prepare tiny_mnist) = snd (fst tiny_mnist) /\
  exists m a, In (m, a) (fit_calls tr) /\ data4 (fit_x a) = [] /\ fit_y a = [].
Proof.
  intros tr.
  assert (Hn : 2 <= 2000) by lia.
  destruct (@split_small_training_set tiny_mnist 2 28 28 nat
              (fw_fit_raises tiny_mnist) 0 (proj1 tiny_mnist_wf) eq_refl eq_refl Hn)
    as (Ht & _ & _ & Hv & HF & _).
  fold tr in HF.
  assert (Hne : fit_calls tr <> []).
  { intros Heq. vm_compute in Heq. discriminate Heq. }
  split; [|split; [vm_compute; reflexivity|split; [exact Ht|split; [exact Hv|]]]].
  - split; [apply tiny_mnist_wf|]. split; [reflexivity|].
    split; [reflexivity|exact Hn].
  - destruct (fit_calls tr) as [|[m a] rest]; [contradiction|].
    exists m, a. split; [now left|].
    inversion HF as [|? ? (Hx & Hy & _) _]. cbn [snd] in *. now split.
Defined.

(** ** Shapes for any image size *)

(** X3. For loaded arrays of any size, [h] x [w] training images and
    [h'] x [w'] test images, the three image arrays the script ends up with
    are well formed: every image of the training and of the validation part
    is [(h + 4)] x [(w + 4)] x 3 and every test image is
    [(h' + 4)] x [(w' + 4)] x 3, as their static shapes say. *)
Theorem prepared_arrays_well_formed (d : loaded) (n h w n' h' w' : nat) :
  wf3 (fst (fst d)) -> shape3 (fst (fst d)) = (n, h, w) ->
  wf3 (fst (snd d)) -> shape3 (fst (snd d)) = (n', h', w') ->
  let ds := prepare d in
  (wf4 (x_train ds) /\ wf4 (x_val ds) /\ wf4 (x_test ds)) /\
  (shape_tail (x_train ds) = (h + 4, w + 4, 3) /\
   shape_tail (x_val ds) = (h + 4, w + 4, 3) /\
   shape4 (x_test ds) = (n', h' + 4, w' + 4, 3)) /\
  Forall (has_shape3 (h + 4) (w + 4) 3) (data4 (x_train ds)) /\
  Forall (has_shape3 (h + 4) (w + 4) 3) (data4 (x_val ds)) /\
  Forall (has_shape3 (h' + 4) (w' + 4) 3) (data4 (x_test ds)).
Proof.
  destruct d as [[xa ya] [xb yb]]. simpl fst; simpl snd.
  intros Hwf Hsh Hwf' Hsh' ds.
  pose proof (wf4_preprocess xa Hwf) as Hp.
  pose proof (wf4_preprocess xb Hwf') as Hp'.
  assert (E : shape4 (preprocess xa) = (n, h + 4, w + 4, 3)).
  { rewrite (shape_preprocess xa Hsh).
    replace (2 + h + 2) with (h + 4) by lia.
    now replace (2 + w + 2) with (w + 4) by lia. }
  assert (E' : shape4 (preprocess xb) = (n', h' + 4, w' + 4, 3)).
  { rewrite (shape_preprocess xb Hsh').
    replace (2 + h' + 2) with (h' + 4) by lia.
    now replace (2 + w' + 2) with (w' + 4) by lia. }
  assert (Wt : wf4 (x_train ds)) by now apply wf4_slice_but_last.
  assert (Wv : wf4 (x_val ds)) by now apply wf4_slice_last.
  assert (St : shape4 (x_train ds) = (n - 2000, h + 4, w + 4, 3)).
  { unfold ds, prepare, x_train, slice_but_last, val_size. now rewrite E. }
  assert (Sv : shape4 (x_val ds) = (n - (n - 2000), h + 4, w + 4, 3)).
  { unfold ds, prepare, x_val, slice_last, val_size. now rewrite E. }
  split; [now repeat split|]. split.
  - unfold shape_tail. rewrite St, Sv. now repeat split.
  - split; [eapply wf4_images; [exact Wt|exact St]|].
    split; eapply wf4_images; [exact Wv|exact Sv|exact Hp'|exact E'].
Qed.

Lemma prepared_arrays_well_formed_witness :
  (wf3 (fst (fst small_mnist)) /\
   shape3 (fst (fst small_mnist)) = (2001, 28, 28) /\
   wf3 (fst (snd small_mnist)) /\
   shape3 (fst (snd small_mnist)) = (1, 28, 28)) /\
  wf4 (x_val (prepare small_mnist)) /\
  Forall (has_shape3 (28 + 4) (28 + 4) 3) (data4 (x_train (prepare small_mnist))).
Proof.
  assert (Hwf' : wf3 (fst (snd small_mnist))) by apply tiny_mnist_wf.
  destruct (@prepared_arrays_well_formed small_mnist 2001 28 28 1 28 28
              small_mnist_wf eq_refl Hwf' eq_refl)
    as ((_ & Hv & _) & _ & Ht & _).
  split; [|split; [exact Hv|exact Ht]].
  split; [exact small_mnist_wf|].
  split; [reflexivity|]. split; [exact Hwf'|reflexivity].
Defined.

(** ** Nothing is lost *)


Lemma quantize_div_uint8 (p : uint8) :
  quantize (div_uint8 scale p) = Byte.to_N p.
Proof.
  destruct p; vm_compute; reflexivity.
Qed.

Lemma div_uint8_inj (p q : uint8) :
  div_uint8 scale p = div_uint8 scale q -> p = q.
Proof.
  intros H. apply (f_equal quantize) in H.
  rewrite !quantize_div_uint8 in H.
  apply (f_equal Byte.of_N) in H. rewrite !Byte.of_to_N in H.
  now injection H.
Qed.

Lemma map_inj {A B} (f : A -> B) :
  (forall a a', f a = f a' -> a = a') ->
  forall l l', map f l = map f l' -> l = l'.
Proof.
  intros Hf l. induction l as [|a l IH]; intros [|a' l'] H;
    try discriminate; [reflexivity|].
  simpl in H. injection H as Ha Hl. f_equal; auto.
Qed.

Lemma pad_axis_inj {A} (z : A) (p : nat * nat) (l l' : list A) :
  pad_axis z p l = pad_axis z p l' -> l = l'.
Proof.
  unfold pad_axis. intros H.
  apply app_inv_head in H. now apply app_inv_tail in H.
Qed.

Lemma preprocess_image_inj (w : nat) (img img' : list (list uint8)) :
  preprocess_image w img = preprocess_image w img' -> img = img'.
Proof.
  unfold preprocess_image, expanded_image, channels. rewrite !repeat_expand_image.
  unfold scaled_image, scale_image, padded_image, paddings, pad_image.
  intros H.
  apply (map_inj _) in H.
  - apply (map_inj _) in H.
    + apply pad_axis_inj in H. revert H. apply map_inj.
      intros row row'. apply pad_axis_inj.
    + intros row row'. apply map_inj. apply div_uint8_inj.
  - intros row row'. apply map_inj. intros v v' E. now injection E.
Qed.

(** X4. Multiplying a scaled value by 255 and rounding to the nearest
    integer gives the pixel back, for every one of the 256 pixel values:
    the rounding of the division to [float32] never moves a value onto
    another pixel's. *)
Theorem quantize_recovers_pixel (p : uint8) :
  quantize (div_uint8 scale p) = Byte.to_N p.
Proof.
  exact (quantize_div_uint8 p).
Qed.

(** X5. Preprocessing loses nothing: two loaded arrays that preprocess to
    the same array are the same array, shape and pixels. *)
Theorem preprocess_injective (x x' : Tensor3 uint8) :
  preprocess x = preprocess x' -> x = x'.
Proof.
  destruct x as [[[n h] w] xs], x' as [[[n' h'] w'] xs'].
  intros H.
  assert (Hs : shape4 (preprocess (mkT3 (n, h, w) xs))
               = shape4 (preprocess (mkT3 (n', h', w') xs'))) by now rewrite H.
  rewrite (@shape_preprocess (mkT3 (n, h, w) xs) n h w eq_refl),
          (@shape_preprocess (mkT3 (n', h', w') xs') n' h' w' eq_refl) in Hs.
  injection Hs as Hn Hh Hw.
  assert (n = n') by lia. assert (h = h') by lia. assert (w = w') by lia.
  subst n' h' w'. f_equal.
  apply (f_equal (@data4 _)) in H.
  rewrite (@preprocess_data (mkT3 (n, h, w) xs) n h w eq_refl),
          (@preprocess_data (mkT3 (n, h, w) xs') n h w eq_refl) in H.
  cbn [data3] in H. revert H. apply map_inj. apply preprocess_image_inj.
Qed.

Lemma preprocess_injective_witness :
  preprocess (fst (fst tiny_mnist))
  = preprocess (mkT3 (2, 28, 28) [image28 xff x00; image28 x80 x07]) /\
  fst (fst tiny_mnist) = mkT3 (2, 28, 28) [image28 xff x00; image28 x80 x07].
Proof.
  split; [reflexivity|].
  apply (preprocess_injective (fst (fst tiny_mnist))). reflexivity.
Defined.

(** ** The order of the calls *)

Lemma always_run {R} (p : prog R) :
  forall (Q : list event -> Prop),
    always p Q ->
    forall W (fw : framework W) (w : W), Q (trace (run fw p w)).
Proof.
  induction p as [R r0|R c k IH|R X body IHb handler IHh k IHk
                 |R X body IHb cleanup IHc k IHk];
    intros Q HQ W fw w; simpl in *; try contradiction.
  - exact HQ.
  - destruct HQ as [He Hx]. destruct (fw c w) as [w' [e|x]]; simpl.
    + apply He.
    + exact (IH x _ (Hx x) W fw w').
Qed.

Local Open Scope string_scope.

(** X6. The control flow of the script does not depend on the data or on
    what the framework returns: the calls of every run, by name, are an
    initial part of one fixed sequence of 54 calls, and all of it when the
    run ends normally. *)
Theorem calls_follow_one_sequence W (fw : framework W) (w : W) :
  exists rest,
    (map (fun ev => call_name (fst ev)) (trace (run fw script w)) ++ rest
     = [ "import"; "import"; "import"; "datasets.mnist.load_data";
         "tf.pad"; "truediv"; "tf.pad"; "truediv";
         "tf.expand_dims"; "tf.expand_dims"; "tf.repeat"; "tf.repeat";
         "getitem"; "getitem"; "getitem"; "getitem";
         "models.Sequential" ]
       ++ repeat "model.add" 21
       ++ [ "model.summary"; "model.compile"; "model.fit"; "plt.subplots";
            "plot"; "plot"; "title.set_text"; "set_xlabel"; "set_ylabel";
            "legend";
            "plot"; "plot"; "title.set_text"; "set_xlabel"; "set_ylabel";
            "legend" ])%list /\
    (outcome (run fw script w) = inr tt -> rest = []).
Proof.
  set (names := (_ ++ _ ++ _)%list).
  assert (Hpre : exists rest,
             (map (fun ev => call_name (fst ev)) (trace (run fw script w))
              ++ rest)%list = names).
  { pattern (trace (run fw script w)). apply always_run.
    unfold script, script_from, perform, tf. cbn [bind always].
    repeat (first [ intros [[? ?] [? ?]] | intros [? ?] | intros ?
                  | split; [intros ?; eexists; reflexivity|] ]).
    exists []. reflexivity. }
  destruct Hpre as [rest Hrest]. exists rest. split; [exact Hrest|].
  intros H.
  assert (Hall : map (fun ev => call_name (fst ev)) (trace (run fw script w))
                 = names).
  { by_ends_with ends_with_run_trace H. script_ends. reflexivity. }
  rewrite Hall in Hrest. rewrite <- (app_nil_r names) in Hrest at 2.
  now apply app_inv_head in Hrest.
Qed.

Local Close Scope string_scope.

(** ** Figures and training *)

(** X7. No figure without a trained model: in a run in which [model.fit]
    did not return, whether it raised or was never reached, the script makes
    no call on [matplotlib] at all. *)
Theorem no_figure_unless_fit_returned W (fw : framework W) (w : W) :
  fit_returned (trace (run fw script w)) = [] ->
  filter (fun ev => is_figure_call (fst ev)) (trace (run fw script w)) = [].
Proof.
  pattern (trace (run fw script w)). apply always_run.
  unfold script, script_from, perform, tf. cbn [bind always].
  repeat (first [ intros [[? ?] [? ?]] | intros [? ?] | intros ?
                | split; [intros ? Hf; first [discriminate Hf|reflexivity]|] ]).
  discriminate.
Qed.

Lemma no_figure_unless_fit_returned_witness :
  fit_returned (trace (run (fw_fit_raises tiny_mnist) script 0)) = [] /\
  outcome (run (fw_fit_raises tiny_mnist) script 0)
  = inl "ResourceExhaustedError"%string /\
  filter (fun ev => is_figure_call (fst ev))
    (trace (run (fw_fit_raises tiny_mnist) script 0)) = [].
Proof.
  assert (Hf : fit_returned (trace (run (fw_fit_raises tiny_mnist) script 0)) = [])
    by (vm_compute; reflexivity).
  split; [exact Hf|]. split; [vm_compute; reflexivity|].
  exact (no_figure_unless_fit_returned nat (fw_fit_raises tiny_mnist) 0 Hf).
Defined.

Local Open Scope string_scope.

(** X8. In a run that ends normally every call on a model is made on the
    one model that [models.Sequential()] returned: the 21 [add] calls, then
    [summary], then one [compile] with the optimizer [adam], the loss
    [sparse_categorical_crossentropy] and the metric [accuracy], then [fit];
    so the model is compiled after its last layer is added and before it is
    trained. *)
Theorem one_model_built_compiled_trained W (fw : framework W) (w : W) :
  outcome (run fw script w) = inr tt ->
  exists m,
    let tr := trace (run fw script w) in
    models_created tr = [m] /\
    model_calls tr
    = (repeat (m, "model.add") 21
       ++ [(m, "model.summary"); (m, "model.compile"); (m, "model.fit")])%list /\
    compile_calls tr = [("adam", "sparse_categorical_crossentropy", ["accuracy"])].
Proof.
  intros H. by_ends_with ends_with_run_trace H.
  script_ends.
  eexists. repeat split; reflexivity.
Qed.

Lemma one_model_built_compiled_trained_witness :
  outcome (run (fw_fresh tiny_mnist) script 0) = inr tt /\
  exists m,
    model_calls (trace (run (fw_fresh tiny_mnist) script 0))
    = (repeat (m, "model.add") 21
       ++ [(m, "model.summary"); (m, "model.compile"); (m, "model.fit")])%list.
Proof.
  split; [vm_compute; reflexivity|].
  destruct (@one_model_built_compiled_trained nat (fw_fresh tiny_mnist) 0)
    as (m & _ & Hm & _); [vm_compute; reflexivity|].
  exists m. exact Hm.
Defined.

Local Close Scope string_scope.

(** ** The shapes inside the model *)

(** X9. By the output shapes Keras documents for its layers, the stack of a
    run that ends normally accepts its declared input shape, whatever the
    size of the loaded images: the resizing layer gives 224 x 224, the
    convolutions and poolings take it down to 1 x 1 x 256, which is
    flattened to 256, and the last layer gives 10 values. *)
Theorem model_shapes_fit_together W (fw : framework W) (w : W) :
  outcome (run fw script w) = inr tt ->
  exists h0 w0 c,
    let ls := map snd (layers_added (trace (run fw script w))) in
    input_shapes ls = [(h0, w0, c)] /\
    output_shapes ls [h0; w0; c]
    = Some [ [224; 224; c];
             [56; 56; 96]; [56; 56; 96]; [56; 56; 96]; [27; 27; 96];
             [7; 7; 256]; [7; 7; 256]; [7; 7; 256]; [3; 3; 256];
             [1; 1; 384]; [1; 1; 384]; [1; 1; 384]; [1; 1; 384];
             [1; 1; 256]; [1; 1; 256];
             [256];
             [4096]; [4096]; [4096]; [4096];
             [10] ].
Proof.
  intros H. by_ends_with ends_with_run_trace H.
  script_ends.
  match goal with
  | |- context [Resizing _ _ _ ?s] => destruct s as [[h0 w0] c]
  end.
  exists h0, w0, c. split; [reflexivity|]. vm_compute. reflexivity.
Qed.

Lemma model_shapes_fit_together_witness :
  outcome (run (fw_fresh tiny_mnist) script 0) = inr tt /\
  exists h0 w0 c,
    input_shapes (map snd (layers_added (trace (run (fw_fresh tiny_mnist) script 0))))
    = [(h0, w0, c)].
Proof.
  split; [vm_compute; reflexivity|].
  destruct (@model_shapes_fit_together nat (fw_fresh tiny_mnist) 0)
    as (h0 & w0 & c & Hin & _); [vm_compute; reflexivity|].
  exists h0, w0, c. exact Hin.
Defined.
